(** * pyhacrf: Hidden Alignment Conditional Random Field

    A shallow embedding of [pyhacrf.py] (classes [Hacrf] and [_Model]) and
    the properties of its lattice builder, forward pass and training
    objective.

    Python values are modelled as follows:
    - integers are [Z]; a tuple of integers (a lattice node [(i, j, s)] or a
      lattice edge [(i0, j0, i1, j1, s0, s1, k)]) is a [list Z], compared
      lexicographically as Python compares tuples;
    - a [numpy] array is a record of its shape and an item function;
    - floating-point numbers are an abstract type with the operations the
      code applies to them ([FloatOps]);
    - a raised exception is a [Raise] result; a [while] loop runs on fuel and
      yields [OutOfFuel] when the fuel does not suffice;
    - [dict] and [defaultdict] are [gmap]s. *)

From stdpp Require Import base tactics option list sorting gmap strings.
From Stdlib Require Import ZArith Lia.

Local Open Scope Z_scope.

(** ** Results of Python computations *)

Inductive exn : Type :=
  | IndexError
  | ValueError
  | AssertionError
  | AttributeError
  | TypeError
  | Exception (msg : string).

Inductive Res (A : Type) : Type :=
  | Ok (a : A)
  | Raise (e : exn)
  | OutOfFuel.

Arguments Ok {A} a.
Arguments Raise {A} e.
Arguments OutOfFuel {A}.

Definition Res_bind {A B : Type} (f : A -> Res B) (m : Res A) : Res B :=
  match m with
  | Ok a => f a
  | Raise e => Raise e
  | OutOfFuel => OutOfFuel
  end.

#[global] Instance Res_mret : MRet Res := fun A a => Ok a.
#[global] Instance Res_mbind : MBind Res := fun A B f m => Res_bind f m.

(** ** Tuples of integers *)

Module PyTuple.

Definition tuple : Type := list Z.

(** Python's [a <= b] on tuples: lexicographic, a proper prefix is smaller. *)
Fixpoint tuple_leb (a b : tuple) : bool :=
  match a, b with
  | [], _ => true
  | _ :: _, [] => false
  | x :: a', y :: b' =>
      if x <? y then true else if y <? x then false else tuple_leb a' b'
  end.

Definition tuple_le (a b : tuple) : Prop := tuple_leb a b = true.

#[global] Instance tuple_le_dec (a b : tuple) : Decision (tuple_le a b).
Proof. unfold tuple_le. apply _. Defined.

(** [sorted(l)] for a list of tuples. *)
Definition sorted (l : list tuple) : list tuple := merge_sort tuple_le l.

(** [i, j, s = t] *)
Definition unpack3 (t : tuple) : Res (Z * Z * Z) :=
  match t with
  | [i; j; s] => Ok (i, j, s)
  | _ => Raise ValueError
  end.

(** [i0, j0, i1, j1, s0, s1, k = t] *)
Definition unpack7 (t : tuple) : Res (Z * Z * Z * Z * Z * Z * Z) :=
  match t with
  | [i0; j0; i1; j1; s0; s1; k] => Ok (i0, j0, i1, j1, s0, s1, k)
  | _ => Raise ValueError
  end.

End PyTuple.

Import PyTuple.

(** ** Floating-point numbers and arrays *)

Class FloatOps (F : Type) : Type := {
  fconst : Z -> F;
  fadd : F -> F -> F;
  fmul : F -> F -> F;
  fneg : F -> F;
  fexp : F -> F
}.

(** The free model of [FloatOps]: the expression a computation builds. *)
Inductive fterm : Type :=
  | TConst (z : Z)
  | TAdd (a b : fterm)
  | TMul (a b : fterm)
  | TNeg (a : fterm)
  | TExp (a : fterm).

#[global] Instance fterm_ops : FloatOps fterm :=
  {| fconst := TConst; fadd := TAdd; fmul := TMul; fneg := TNeg; fexp := TExp |}.

Section Arrays.
Context {F : Type} `{FloatOps F}.

(** A three-dimensional [ndarray]: [x.shape = (dimI, dimJ, dimF)]. *)
Record ndarray3 : Type := {
  dimI : nat;
  dimJ : nat;
  dimF : nat;
  item3 : nat -> nat -> nat -> F
}.

(** A two-dimensional [ndarray]: [a.shape = (rows, cols)]. *)
Record ndarray2 : Type := {
  rows : nat;
  cols : nat;
  item2 : nat -> nat -> F
}.

(** An index into an axis of length [n]; negative indices count from the
    end, anything else is an [IndexError]. *)
Definition axis_index (n : nat) (i : Z) : Res nat :=
  if decide (0 <= i < Z.of_nat n) then Ok (Z.to_nat i)
  else if decide (- Z.of_nat n <= i < 0) then Ok (Z.to_nat (i + Z.of_nat n))
  else Raise IndexError.

(** [x[i, j, :]] *)
Definition slice3 (x : ndarray3) (i j : Z) : Res (list F) :=
  i' ← axis_index (dimI x) i;
  j' ← axis_index (dimJ x) j;
  mret (map (item3 x i' j') (seq 0 (dimF x))).

(** [a[:, c]] *)
Definition column (a : ndarray2) (c : Z) : Res (list F) :=
  c' ← axis_index (cols a) c;
  mret (map (fun r => item2 a r c') (seq 0 (rows a))).

(** [np.dot(u, v)] on one-dimensional arrays. *)
Fixpoint dot_sum (u v : list F) : F :=
  match u, v with
  | a :: u', b :: v' => fadd (fmul a b) (dot_sum u' v')
  | _, _ => fconst 0
  end.

Definition dot (u v : list F) : Res F :=
  if decide (length u = length v) then Ok (dot_sum u v) else Raise ValueError.

(** [np.zeros((r, c))] *)
Definition zeros (r c : nat) : ndarray2 :=
  {| rows := r; cols := c; item2 := fun _ _ => fconst 0 |}.

(** [a.fill(v)] *)
Definition fill (a : ndarray2) (v : F) : ndarray2 :=
  {| rows := rows a; cols := cols a; item2 := fun _ _ => v |}.

(** [-a] *)
Definition negate (a : ndarray2) : ndarray2 :=
  {| rows := rows a; cols := cols a; item2 := fun r c => fneg (item2 a r c) |}.

(** ** State machines *)

(** A transition's delta: a pair of offsets, or a function of the position
    and the feature tensor that returns one. *)
Inductive delta : Type :=
  | Fixed (di dj : Z)
  | Callable (f : Z -> Z -> ndarray3 -> Z * Z).

Definition transition : Type := Z * Z * delta.

(** An item of the list of states: the tuple of start states, or one state. *)
Inductive state_item : Type :=
  | StartTuple (ss : list Z)
  | State (s : Z).

(** [(list_of_states, list_of_transitions)] *)
Definition StateMachine : Type := list state_item * list transition.

Definition src (t : transition) : Z := t.1.1.
Definition dst (t : transition) : Z := t.1.2.

(** [dict(pairs)]: a later pair overrides an earlier one with the same key. *)
Definition py_dict {K V : Type} `{Countable K} (pairs : list (K * V))
  : gmap K V :=
  foldl (fun m kv => <[kv.1 := kv.2]> m) ∅ pairs.

(** ** [Hacrf._default_state_machine] *)

Definition _default_state_machine {C : Type} (classes : list C)
  : StateMachine * gmap Z C :=
  let n_classes := Z.of_nat (length classes) in
  (([StartTuple (seqZ 0 n_classes)],
    map (fun i => (i, i, Fixed 1 1)) (seqZ 0 n_classes) ++
    map (fun i => (i, i, Fixed 0 1)) (seqZ 0 n_classes) ++
    map (fun i => (i, i, Fixed 1 0)) (seqZ 0 n_classes)),
   py_dict (imap (fun i c => (Z.of_nat i, c)) classes)).

(** ** [Hacrf._initialize_parameters] *)

Definition _initialize_parameters (sm : StateMachine) (n_features : nat)
  : ndarray2 :=
  let n_states := length sm.1 in
  let n_transitions := length sm.2 in
  zeros n_features (n_states + n_transitions).

(** ** [_Model._build_lattice] *)

Definition node : Type := Z * Z * Z.

Definition node_tuple (n : node) : tuple :=
  let '(i, j, s) := n in [i; j; s].

Definition eval_delta (d : delta) (i j : Z) (x : ndarray3) : Z * Z :=
  match d with
  | Fixed di dj => (di, dj)
  | Callable f => f i j x
  end.

(** The [for transition_index, (s0, s1, delta) in enumerate(transitions)]
    loop, on the pair of [lattice] and [unvisited_nodes]. *)
Fixpoint for_transitions (x : ndarray3) (I J n_states i j s : Z)
    (transitions : list transition) (transition_index : Z)
    (st : list tuple * list node) : list tuple * list node :=
  match transitions with
  | [] => st
  | (s0, s1, d) :: rest =>
      let st' :=
        if decide (s = s0) then
          let '(di, dj) := eval_delta d i j x in
          if decide (i + di < I /\ j + dj < J) then
            (st.1 ++ [[i; j; i + di; j + dj; s0; s1; transition_index + n_states]],
             st.2 ++ [(i + di, j + dj, s1)])
          else st
        else st in
      for_transitions x I J n_states i j s rest (transition_index + 1) st'
  end.

(** The [while unvisited_nodes] loop. *)
Fixpoint while_unvisited (fuel : nat) (x : ndarray3) (I J n_states : Z)
    (transitions : list transition)
    (lattice : list tuple) (unvisited_nodes : list node) : Res (list tuple) :=
  match unvisited_nodes with
  | [] => Ok lattice
  | (i, j, s) :: unvisited =>
      match fuel with
      | O => OutOfFuel
      | S fuel' =>
          let st := for_transitions x I J n_states i j s transitions 0
                      (lattice ++ [[i; j; s]], unvisited) in
          while_unvisited fuel' x I J n_states transitions st.1 st.2
      end
  end.

(** The local [lattice] of [_build_lattice] when the [while] loop is left. *)
Definition unsorted_lattice (fuel : nat) (x : ndarray3) (sm : StateMachine)
  : Res (list tuple) :=
  let I := Z.of_nat (dimI x) in
  let J := Z.of_nat (dimJ x) in
  let '(states, transitions) := sm in
  match states with
  | [] => Raise IndexError
  | State _ :: _ => Raise AssertionError
  | StartTuple starts :: _ =>
      let unvisited_nodes := map (fun s => (0, 0, s)) starts in
      let n_states := Z.of_nat (length states) - 1 + Z.of_nat (length starts) in
      while_unvisited fuel x I J n_states transitions [] unvisited_nodes
  end.

Definition _build_lattice (fuel : nat) (x : ndarray3) (sm : StateMachine)
  : Res (list tuple) :=
  lattice ← unsorted_lattice fuel x sm;
  mret (sorted lattice).

(** ** [_Model] *)

Context {C : Type} `{EqDecision C}.

(** A value held by an attribute that [__init__] does not set. *)
Inductive pyvalue : Type :=
  | VFloat (v : F)
  | VMethod (f : ndarray2 -> Res ndarray2).

(** A [_Model] object: the five attributes [__init__] sets, and the rest of
    the instance's [__dict__]. The class defines no attribute besides its
    three methods [__init__], [forward_backward] and [_build_lattice]. *)
Record Model : Type := {
  state_machine : StateMachine;
  classes : list C;
  x : ndarray3;
  y : C;
  _lattice : list tuple;
  __dict__ : gmap string pyvalue
}.

(** [_Model.__init__] *)
Definition __init__ (fuel : nat) (sm : StateMachine) (cs : list C)
    (x0 : ndarray3) (y0 : C) : Res Model :=
  lattice ← _build_lattice fuel x0 sm;
  mret {| state_machine := sm; classes := cs; x := x0; y := y0;
          _lattice := lattice; __dict__ := ∅ |}.

(** [alpha[k]] on a [defaultdict(float)]: a missing key is inserted with
    [0.0]. *)
Definition defaultdict_get (alpha : gmap tuple F) (k : tuple)
  : F * gmap tuple F :=
  match alpha !! k with
  | Some v => (v, alpha)
  | None => (fconst 0, <[k := fconst 0]> alpha)
  end.

(** The body of [for node in self._lattice]. *)
Definition forward_step (x0 : ndarray3) (parameters : ndarray2)
    (alpha : gmap tuple F) (node : tuple) : Res (gmap tuple F) :=
  if decide (length node < 3)%nat then
    '(i, j, s) ← unpack3 node;
    let '(a, alpha1) := defaultdict_get alpha node in
    xs ← slice3 x0 i j;
    ps ← column parameters s;
    d ← dot xs ps;
    mret (<[node := fadd a (fexp d)]> alpha1)
  else
    '(i0, j0, i1, j1, s0, s1, edge_parameter_index) ← unpack7 node;
    xs ← slice3 x0 i1 j1;
    ps ← column parameters edge_parameter_index;
    d ← dot xs ps;
    let '(a, alpha1) := defaultdict_get alpha [i0; j0; s0] in
    let edge_potential := fexp (fmul d a) in
    let alpha2 := <[node := edge_potential]> alpha1 in
    let '(b, alpha3) := defaultdict_get alpha2 [i1; j1; s1] in
    mret (<[[i1; j1; s1] := fadd b edge_potential]> alpha3).

Fixpoint forward_loop (x0 : ndarray3) (parameters : ndarray2)
    (alpha : gmap tuple F) (lattice : list tuple) : Res (gmap tuple F) :=
  match lattice with
  | [] => Ok alpha
  | node :: rest =>
      alpha' ← forward_step x0 parameters alpha node;
      forward_loop x0 parameters alpha' rest
  end.

(** [_Model.forward_backward]: the result ([None] or an exception) and the
    object after the call. *)
Definition forward_backward (self : Model) (parameters : ndarray2)
  : Res unit * Model :=
  (_ ← forward_loop (x self) parameters ∅ (_lattice self); mret tt, self).

(** [self.name] for a name that is neither set by [__init__] nor defined by
    the class. *)
Definition getattr (self : Model) (name : string) : Res pyvalue :=
  match __dict__ self !! name with
  | Some v => Ok v
  | None => Raise AttributeError
  end.

(** [self.name(arg)] *)
Definition call_method (self : Model) (name : string) (arg : ndarray2)
  : Res ndarray2 :=
  v ← getattr self name;
  match v with
  | VMethod f => f arg
  | VFloat _ => Raise TypeError
  end.

(** [self.name] used as a number. *)
Definition getattr_float (self : Model) (name : string) : Res F :=
  v ← getattr self name;
  match v with
  | VFloat a => Ok a
  | VMethod _ => Raise TypeError
  end.

(** ** [Hacrf] *)

(** The external optimizer and the type of what it returns. *)
Context {OptimizerResult : Type}.
Context (fmin_l_bfgs_b :
  (ndarray2 -> Res (F * ndarray2)) -> ndarray2 -> Res OptimizerResult).

Record Hacrf : Type := {
  _optimizer_result : option OptimizerResult;
  parameters : option ndarray2
}.

(** [Hacrf.__init__] *)
Definition Hacrf_init : Hacrf :=
  {| _optimizer_result := None; parameters := None |}.

(** [[_Model(state_machine, classes, x, ty) for x, ty in zip(X, y)]]: the
    objects constructed, in order, and the list or the exception that stops
    the comprehension. *)
Fixpoint make_models (fuel : nat) (sm : StateMachine) (cs : list C)
    (X : list ndarray3) (ys : list C) : list Model * Res (list Model) :=
  match X, ys with
  | x0 :: X', ty :: ys' =>
      match __init__ fuel sm cs x0 ty with
      | Ok m =>
          let '(built, r) := make_models fuel sm cs X' ys' in
          (m :: built, ms ← r; mret (m :: ms))
      | Raise e => ([], Raise e)
      | OutOfFuel => ([], OutOfFuel)
      end
  | _, _ => ([], Ok [])
  end.

(** The [for model in models] loop of [_objective], on [derivative] and
    [ll]. *)
Fixpoint objective_loop (models : list Model) (params : ndarray2)
    (derivative : ndarray2) (ll : F) : Res (F * ndarray2) :=
  match models with
  | [] => Ok (ll, derivative)
  | model :: rest =>
      let '(r, model') := forward_backward model params in
      _ ← r;
      derivative' ← call_method model' "add_derivative" derivative;
      v ← getattr_float model' "ll";
      objective_loop rest params derivative' (fadd ll v)
  end.

(** The closure [_objective] of [fit], over [models] and [derivative]. *)
Definition _objective (models : list Model) (derivative : ndarray2)
    (params : ndarray2) : Res (F * ndarray2) :=
  let derivative0 := fill derivative (fconst 0) in
  '(ll, d) ← objective_loop models params derivative0 (fconst 0);
  mret (fneg ll, negate d).

(** The outcome of a call of [fit]: the [Hacrf] object after the call, the
    [_Model] objects constructed during it, and what the call returns. *)
Record fit_outcome : Type := {
  fit_self : Hacrf;
  fit_models : list Model;
  fit_result : Res unit
}.

(** [list(set(y))]: the distinct labels, in the order in which Python
    iterates over the set. The language fixes no such order, so the listing
    is a parameter of [fit]. *)
Context (list_of_set : list C -> list C).

Definition mismatch_message : string :=
  "Number of training points should be the same as training labels.".

(** [Hacrf.fit] *)
Definition fit (fuel : nat) (self : Hacrf) (X : list ndarray3) (ys : list C)
  : fit_outcome :=
  let cs := list_of_set ys in
  let n_points := length ys in
  if decide (length X ≠ n_points) then
    {| fit_self := self; fit_models := [];
       fit_result := Raise (Exception mismatch_message) |}
  else
    let '(sm, states_to_classes) := _default_state_machine cs in
    match X with
    | [] => {| fit_self := self; fit_models := []; fit_result := Raise IndexError |}
    | x0 :: _ =>
        let params := _initialize_parameters sm (dimF x0) in
        let self1 := {| _optimizer_result := _optimizer_result self;
                        parameters := Some params |} in
        let '(built, r) := make_models fuel sm cs X ys in
        match r with
        | Ok models =>
            let derivative := zeros (rows params) (cols params) in
            match fmin_l_bfgs_b (_objective models derivative) params with
            | Ok res =>
                {| fit_self := {| _optimizer_result := Some res;
                                  parameters := Some params |};
                   fit_models := built; fit_result := Ok tt |}
            | Raise e =>
                {| fit_self := self1; fit_models := built; fit_result := Raise e |}
            | OutOfFuel =>
                {| fit_self := self1; fit_models := built; fit_result := OutOfFuel |}
            end
        | Raise e =>
            {| fit_self := self1; fit_models := built; fit_result := Raise e |}
        | OutOfFuel =>
            {| fit_self := self1; fit_models := built; fit_result := OutOfFuel |}
        end
    end.

End Arrays.

(** ** Auxiliary definitions for the statements and proofs *)

Section LatticeDefs.
Context {F : Type} `{FloatOps F}.

(** What one run of [for_transitions] appends to [lattice] and to
    [unvisited_nodes]. *)
Definition out_edges (x0 : ndarray3 (F:=F)) (I J n_states i j s : Z)
    (ts : list (transition (F:=F))) (k : Z) : list tuple :=
  (for_transitions x0 I J n_states i j s ts k ([], [])).1.

Definition successors (x0 : ndarray3 (F:=F)) (I J n_states i j s : Z)
    (ts : list (transition (F:=F))) (k : Z) : list node :=
  (for_transitions x0 I J n_states i j s ts k ([], [])).2.

(** A transition with a fixed delta of non-negative offsets, not both zero. *)
Definition fixed_delta_ok (t : transition (F:=F)) : Prop :=
  match t.2 with
  | Fixed di dj => 0 <= di /\ 0 <= dj /\ 1 <= di + dj
  | Callable _ => False
  end.

(** The termination measure of the worklist: a node at distance [d] from
    the far corner weighs [(T + 1) ^ d], [T] the number of transitions. *)
Definition weight (T : nat) (I J : Z) (n : node) : nat :=
  (S T ^ Z.to_nat (I + J - n.1.1 - n.1.2))%nat.

Definition measure (T : nat) (I J : Z) (l : list node) : nat :=
  sum_list_with (weight T I J) l.

(** The start states of a state machine: the tuple [states[0]]. *)
Definition start_states (sm : StateMachine (F:=F)) : list Z :=
  match sm.1 with
  | StartTuple starts :: _ => starts
  | _ => []
  end.

(** Fuel that suffices for [_build_lattice] on a state machine whose
    transitions all satisfy [fixed_delta_ok]. *)
Definition lattice_fuel (x0 : ndarray3 (F:=F)) (sm : StateMachine) : nat :=
  S (measure (length sm.2) (Z.of_nat (dimI x0)) (Z.of_nat (dimJ x0))
       (map (fun s => (0, 0, s)) (start_states sm))).

(** A state machine whose states are start states, one per class, and whose
    transitions are match, insertion and deletion self-transitions on them. *)
Definition edit_machine (sm : StateMachine (F:=F)) : Prop :=
  exists starts,
    sm.1 = [StartTuple starts] /\ NoDup starts /\
    forall t, t ∈ sm.2 ->
      src t = dst t /\ src t ∈ starts /\
      (t.2 = Fixed 1 1 \/ t.2 = Fixed 0 1 \/ t.2 = Fixed 1 0).

(** [n_states] as [_build_lattice] computes it:
    [len(states) - 1 + len(states[0])]. *)
Definition n_states_of (sm : StateMachine (F:=F)) : Z :=
  Z.of_nat (length sm.1) - 1 + Z.of_nat (length (start_states sm)).

End LatticeDefs.

(** Feature tensors of a given shape, all features zero, over [fterm]. *)
Definition zero_tensor (I J n_features : nat) : ndarray3 (F:=fterm) :=
  {| dimI := I; dimJ := J; dimF := n_features;
     item3 := fun _ _ _ => TConst 0 |}.

(** What a listing of the set of the labels has to satisfy: no label twice,
    and the labels of [ys], all of them and no other. *)
Definition set_listing {C : Type} (list_of_set : list C -> list C) : Prop :=
  forall ys, NoDup (list_of_set ys) /\ forall c, c ∈ list_of_set ys <-> c ∈ ys.

(** The model of a 1 x 1 tensor with label 0, the only class. *)
Definition unit_model : Model (F:=fterm) (C:=Z) :=
  {| state_machine := (_default_state_machine [0]).1; classes := [0];
     x := zero_tensor 1 1 1; y := 0; _lattice := [[0; 0; 0]]; __dict__ := ∅ |}.

(** The edges of a lattice as a relation on nodes, and acyclicity. *)
Definition lattice_step (l : list tuple) (u v : Z * Z * Z) : Prop :=
  exists k, [u.1.1; u.1.2; v.1.1; v.1.2; u.2; v.2; k] ∈ l.

Definition acyclic (l : list tuple) : Prop :=
  forall u, ~ tc (lattice_step l) u u.

(** Number of occurrences of a tuple in a lattice. *)
Definition occurrences (t : tuple) (l : list tuple) : nat :=
  length (filter (fun u => u = t) l).

(** * Properties *)

(** ** The order on tuples *)

Lemma tuple_leb_refl (a : tuple) : tuple_leb a a = true.
Proof.
  induction a as [|z a IH]; simpl; [done|].
  by rewrite Z.ltb_irrefl.
Qed.

Lemma tuple_leb_total (a b : tuple) : tuple_leb a b = true \/ tuple_leb b a = true.
Proof.
  revert b; induction a as [|z a IH]; intros [|w b]; simpl; auto.
  destruct (Z.ltb_spec z w), (Z.ltb_spec w z); auto; lia.
Qed.

Lemma tuple_leb_trans (a b c : tuple) :
  tuple_leb a b = true -> tuple_leb b c = true -> tuple_leb a c = true.
Proof.
  revert b c; induction a as [|z a IH]; intros [|w b] [|v c]; simpl; try done.
  destruct (Z.ltb_spec z w), (Z.ltb_spec w z), (Z.ltb_spec w v),
    (Z.ltb_spec v w), (Z.ltb_spec z v), (Z.ltb_spec v z);
    try done; try lia; eauto.
Qed.

Lemma tuple_leb_antisym (a b : tuple) :
  tuple_leb a b = true -> tuple_leb b a = true -> a = b.
Proof.
  revert b; induction a as [|z a IH]; intros [|w b]; simpl; try done.
  destruct (Z.ltb_spec z w), (Z.ltb_spec w z); try done; try lia.
  intros Hab Hba. assert (z = w) as -> by lia. f_equal; auto.
Qed.

#[global] Instance tuple_le_total : Total tuple_le.
Proof. intros a b. apply tuple_leb_total. Qed.

#[global] Instance tuple_le_trans : Transitive tuple_le.
Proof. intros a b c. apply tuple_leb_trans. Qed.

#[global] Instance tuple_le_antisym : AntiSymm (=) tuple_le.
Proof. intros a b. apply tuple_leb_antisym. Qed.

#[global] Instance tuple_le_refl : Reflexive tuple_le.
Proof. intros a. apply tuple_leb_refl. Qed.

Lemma sorted_Sorted (l : list tuple) : Sorted tuple_le (sorted l).
Proof. apply (Sorted_merge_sort tuple_le). Qed.

Lemma sorted_Permutation (l : list tuple) : sorted l ≡ₚ l.
Proof. apply (merge_sort_Permutation tuple_le). Qed.

(** ** The lattice builder *)

Section Lattice.
Context {F : Type} `{FloatOps F}.
Implicit Types (xs : ndarray3 (F:=F)) (ts : list (transition (F:=F)))
  (lat : list tuple)
  (unv : list node).

Lemma for_transitions_app xs I J ns i j s ts k lat unv :
  for_transitions xs I J ns i j s ts k (lat, unv) =
  (lat ++ out_edges xs I J ns i j s ts k,
   unv ++ successors xs I J ns i j s ts k).
Proof.
  unfold out_edges, successors.
  revert k lat unv; induction ts as [|[[s0 s1] d] ts IH]; intros k lat unv.
  - simpl. by rewrite !app_nil_r.
  - simpl. destruct (decide (s = s0)) as [->|]; [|apply IH].
    destruct (eval_delta d i j xs) as [di dj].
    destruct (decide _); [|apply IH].
    simpl. rewrite (IH (k + 1) (lat ++ _)), (IH (k + 1) [_] [_]).
    simpl. by rewrite <- !app_assoc.
Qed.

Lemma out_edges_cons xs I J ns i j s s0 s1 d ts k :
  out_edges xs I J ns i j s ((s0, s1, d) :: ts) k =
  (if decide (s = s0 /\ i + (eval_delta d i j xs).1 < I
              /\ j + (eval_delta d i j xs).2 < J)
   then [[i; j; i + (eval_delta d i j xs).1; j + (eval_delta d i j xs).2;
          s0; s1; k + ns]]
   else []) ++ out_edges xs I J ns i j s ts (k + 1).
Proof.
  unfold out_edges at 1. simpl.
  destruct (decide (s = s0)) as [->|Hne].
  - destruct (eval_delta d i j xs) as [di dj]; simpl.
    destruct (decide (i + di < I /\ j + dj < J)) as [Hb|Hb].
    + rewrite decide_True by tauto. by rewrite for_transitions_app.
    + rewrite decide_False by tauto. done.
  - rewrite decide_False by tauto. done.
Qed.

Lemma successors_cons xs I J ns i j s s0 s1 d ts k :
  successors xs I J ns i j s ((s0, s1, d) :: ts) k =
  (if decide (s = s0 /\ i + (eval_delta d i j xs).1 < I
              /\ j + (eval_delta d i j xs).2 < J)
   then [(i + (eval_delta d i j xs).1, j + (eval_delta d i j xs).2, s1)]
   else []) ++ successors xs I J ns i j s ts (k + 1).
Proof.
  unfold successors at 1. simpl.
  destruct (decide (s = s0)) as [->|Hne].
  - destruct (eval_delta d i j xs) as [di dj]; simpl.
    destruct (decide (i + di < I /\ j + dj < J)) as [Hb|Hb].
    + rewrite decide_True by tauto. by rewrite for_transitions_app.
    + rewrite decide_False by tauto. done.
  - rewrite decide_False by tauto. done.
Qed.

Lemma elem_of_out_edges xs I J ns i j s ts k e :
  e ∈ out_edges xs I J ns i j s ts k ->
  exists (n : nat) s1 d,
    ts !! n = Some (s, s1, d) /\
    i + (eval_delta d i j xs).1 < I /\ j + (eval_delta d i j xs).2 < J /\
    e = [i; j; i + (eval_delta d i j xs).1; j + (eval_delta d i j xs).2;
         s; s1; k + Z.of_nat n + ns].
Proof.
  revert k; induction ts as [|[[s0 s1] d] ts IH]; intros k.
  - unfold out_edges; simpl. by intros ?%elem_of_nil.
  - rewrite out_edges_cons, elem_of_app. intros [He|He].
    + destruct (decide _) as [(-> & ? & ?)|]; [|by apply elem_of_nil in He].
      apply list_elem_of_singleton in He as ->.
      exists 0%nat, s1, d. rewrite Z.add_0_r. done.
    + destruct (IH _ He) as (n & s1' & d' & Hn & ? & ? & ->).
      exists (S n), s1', d'. repeat split; try done.
      by replace (k + Z.of_nat (S n) + ns) with (k + 1 + Z.of_nat n + ns) by lia.
Qed.

Lemma elem_of_successors xs I J ns i j s ts k c :
  c ∈ successors xs I J ns i j s ts k ->
  exists s1 d,
    (s, s1, d) ∈ ts /\
    i + (eval_delta d i j xs).1 < I /\ j + (eval_delta d i j xs).2 < J /\
    c = (i + (eval_delta d i j xs).1, j + (eval_delta d i j xs).2, s1).
Proof.
  revert k; induction ts as [|[[s0 s1] d] ts IH]; intros k.
  - unfold successors; simpl. by intros ?%elem_of_nil.
  - rewrite successors_cons, elem_of_app. intros [Hc|Hc].
    + destruct (decide _) as [(-> & ? & ?)|]; [|by apply elem_of_nil in Hc].
      apply list_elem_of_singleton in Hc as ->.
      exists s1, d. repeat split; try done. by left.
    + destruct (IH _ Hc) as (s1' & d' & Hin & ? & ? & ->).
      exists s1', d'. repeat split; try done. by right.
Qed.

Lemma successors_length xs I J ns i j s ts k :
  (length (successors xs I J ns i j s ts k) <= length ts)%nat.
Proof.
  revert k; induction ts as [|[[s0 s1] d] ts IH]; intros k.
  - unfold successors; simpl. lia.
  - rewrite successors_cons, length_app. specialize (IH (k + 1)).
    destruct (decide _); cbn [length]; [apply le_n_S, IH | apply le_S, IH].
Qed.

(** What the worklist loop returns: the lattice so far, the tuples of the
    nodes still in the worklist, and further tuples, each the tuple of a
    successor or an edge. *)
Lemma while_unvisited_emits (PN : node -> Prop) (QL : tuple -> Prop)
    xs I J ns ts :
  (forall i j s c, PN (i, j, s) -> c ∈ successors xs I J ns i j s ts 0 ->
     PN c /\ QL (node_tuple c)) ->
  (forall i j s e, PN (i, j, s) -> e ∈ out_edges xs I J ns i j s ts 0 -> QL e) ->
  forall fuel lat unv l,
    Forall PN unv ->
    while_unvisited fuel xs I J ns ts lat unv = Ok l ->
    exists Y, l ≡ₚ lat ++ map node_tuple unv ++ Y /\ Forall QL Y.
Proof.
  intros Hsucc Hedge fuel.
  induction fuel as [|fuel IH]; intros lat [|[[i j] s] unv] l Hunv Hrun;
    simpl in Hrun; try discriminate.
  - exists []. injection Hrun as <-. by rewrite !app_nil_r.
  - exists []. injection Hrun as <-. by rewrite !app_nil_r.
  - rewrite for_transitions_app in Hrun. simpl in Hrun.
    apply Forall_cons in Hunv as [Hn Hunv].
    apply IH in Hrun as (Y & Hperm & HY).
    + exists (out_edges xs I J ns i j s ts 0 ++
              map node_tuple (successors xs I J ns i j s ts 0) ++ Y).
      split.
      * rewrite Hperm, map_app. simpl. rewrite <- !app_assoc. simpl.
        apply Permutation_app_head. apply Permutation_cons; [done|].
        rewrite !app_assoc. apply Permutation_app_tail.
        rewrite <- !app_assoc. apply Permutation_app_swap_app.
      * rewrite !Forall_app. repeat split; [| |done].
        -- apply Forall_forall. intros e He. by apply (Hedge i j s).
        -- apply Forall_forall. intros t (c & -> & Hc)%list_elem_of_fmap.
           by apply (Hsucc i j s).
    + apply Forall_app. split; [done|].
      apply Forall_forall. intros c Hc. by apply (Hsucc i j s).
Qed.

Lemma while_unvisited_fuel_mono xs I J ns ts fuel fuel' lat unv l :
  while_unvisited fuel xs I J ns ts lat unv = Ok l ->
  (fuel <= fuel')%nat ->
  while_unvisited fuel' xs I J ns ts lat unv = Ok l.
Proof.
  revert fuel' lat unv; induction fuel as [|fuel IH];
    intros fuel' lat [|[[i j] s] unv] Hrun Hle; simpl in Hrun; try discriminate.
  - by destruct fuel'.
  - by destruct fuel'.
  - destruct fuel' as [|fuel']; [lia|]. simpl. apply IH; [done|lia].
Qed.

Lemma weight_pos T I J (n : node) : (1 <= weight T I J n)%nat.
Proof.
  unfold weight. pose proof (Nat.pow_nonzero (S T) (Z.to_nat (I + J - n.1.1 - n.1.2))).
  lia.
Qed.

Lemma measure_app T I J (l1 l2 : list node) :
  measure T I J (l1 ++ l2) = (measure T I J l1 + measure T I J l2)%nat.
Proof. apply sum_list_with_app. Qed.

Lemma successor_weight T xs I J ns i j s ts k c :
  Forall fixed_delta_ok ts ->
  c ∈ successors xs I J ns i j s ts k ->
  (weight T I J c * S T <= weight T I J (i, j, s))%nat.
Proof.
  intros Hok (s1 & d & Hin & Hi & Hj & ->)%elem_of_successors.
  rewrite Forall_forall in Hok. specialize (Hok _ Hin).
  unfold fixed_delta_ok in Hok. simpl in Hok.
  destruct d as [di dj|f]; [|done]. simpl in *.
  unfold weight. simpl.
  rewrite Nat.mul_comm, <- Nat.pow_succ_r'.
  apply Nat.pow_le_mono_r; lia.
Qed.

Lemma measure_bound T I J B W (l : list node) :
  (forall c, c ∈ l -> (weight T I J c * B <= W)%nat) ->
  (measure T I J l * B <= length l * W)%nat.
Proof.
  induction l as [|c l IH]; intros Hl; [simpl; lia|].
  unfold measure in *. cbn [sum_list_with length].
  assert (weight T I J c * B <= W)%nat by (apply Hl; left).
  assert (sum_list_with (weight T I J) l * B <= length l * W)%nat
    by (apply IH; intros; apply Hl; by right).
  lia.
Qed.

(** With fixed deltas that are non-negative and not both zero the worklist
    loop returns, whatever the worklist, once the fuel exceeds its measure. *)
Lemma while_unvisited_terminates xs I J ns ts :
  Forall fixed_delta_ok ts ->
  forall fuel lat unv,
    (measure (length ts) I J unv < fuel)%nat ->
    exists l, while_unvisited fuel xs I J ns ts lat unv = Ok l.
Proof.
  intros Hok fuel. induction fuel as [|fuel IH]; intros lat unv Hm; [lia|].
  destruct unv as [|[[i j] s] unv]; [by eexists|].
  simpl. rewrite for_transitions_app. simpl. apply IH.
  rewrite measure_app.
  unfold measure in Hm. cbn [sum_list_with] in Hm.
  fold (measure (length ts) I J unv) in Hm.
  pose proof (measure_bound (length ts) I J (S (length ts)) (weight (length ts) I J (i, j, s))
    (successors xs I J ns i j s ts 0)) as Hb.
  pose proof (successors_length xs I J ns i j s ts 0) as Hlen.
  pose proof (weight_pos (length ts) I J (i, j, s)) as Hpos.
  assert (measure (length ts) I J (successors xs I J ns i j s ts 0)
          < weight (length ts) I J (i, j, s))%nat; [|lia].
  specialize (Hb (fun c Hc => successor_weight _ _ _ _ _ _ _ _ _ _ _ Hok Hc)).
  nia.
Qed.

End Lattice.

Section LatticeResults.
Context {F : Type} `{FloatOps F}.
Implicit Types (xs : ndarray3 (F:=F)) (sm : StateMachine (F:=F))
  (ts : list (transition (F:=F))).

Lemma build_lattice_Ok fuel xs sm l :
  _build_lattice fuel xs sm = Ok l <->
  exists raw, unsorted_lattice fuel xs sm = Ok raw /\ l = sorted raw.
Proof.
  unfold _build_lattice. destruct (unsorted_lattice fuel xs sm) as [raw| |]; simpl.
  - split; [intros [= <-]; eauto|]. by intros (? & [= <-] & ->).
  - split; [done|]. by intros (? & ? & _).
  - split; [done|]. by intros (? & ? & _).
Qed.

Lemma unsorted_lattice_total xs sm :
  Forall fixed_delta_ok sm.2 ->
  exists r, r <> OutOfFuel /\
    forall fuel, (lattice_fuel xs sm <= fuel)%nat -> unsorted_lattice fuel xs sm = r.
Proof.
  destruct sm as [states ts]. simpl. intros Hok.
  destruct states as [|[starts|s] rest].
  - by exists (Raise IndexError).
  - destruct (while_unvisited_terminates xs (Z.of_nat (dimI xs)) (Z.of_nat (dimJ xs))
      (Z.of_nat (length (StartTuple starts :: rest)) - 1 + Z.of_nat (length starts))
      ts Hok (lattice_fuel xs (StartTuple starts :: rest, ts)) []
      (map (fun s => (0, 0, s)) starts)) as [l Hl].
    { unfold lattice_fuel, start_states. simpl. lia. }
    exists (Ok l). split; [done|]. intros fuel Hfuel.
    unfold unsorted_lattice. by apply (while_unvisited_fuel_mono _ _ _ _ _ _ _ _ _ _ Hl).
  - by exists (Raise AssertionError).
Qed.

Lemma build_lattice_total xs sm :
  Forall fixed_delta_ok sm.2 ->
  exists r, r <> OutOfFuel /\
    forall fuel, (lattice_fuel xs sm <= fuel)%nat -> _build_lattice fuel xs sm = r.
Proof.
  intros Hok. destruct (unsorted_lattice_total xs sm Hok) as (r & Hr & Hfuel).
  exists (lattice ← r; mret (sorted lattice)). split.
  - by destruct r.
  - intros fuel Hle. unfold _build_lattice. by rewrite (Hfuel fuel Hle).
Qed.

(** The tuples of a lattice: the start nodes and, besides them, tuples of
    successors and edges. *)
Lemma unsorted_lattice_emits (PN : node -> Prop) (QL : tuple -> Prop)
    fuel xs sm raw :
  (forall ns i j s c, PN (i, j, s) ->
     c ∈ successors xs (Z.of_nat (dimI xs)) (Z.of_nat (dimJ xs)) ns i j s sm.2 0 ->
     PN c /\ QL (node_tuple c)) ->
  (forall ns i j s e, PN (i, j, s) ->
     e ∈ out_edges xs (Z.of_nat (dimI xs)) (Z.of_nat (dimJ xs)) ns i j s sm.2 0 ->
     QL e) ->
  (forall s, s ∈ start_states sm -> PN (0, 0, s)) ->
  unsorted_lattice fuel xs sm = Ok raw ->
  exists Y, raw ≡ₚ map (fun s => [0; 0; s]) (start_states sm) ++ Y /\ Forall QL Y.
Proof.
  destruct sm as [states ts]. intros Hsucc Hedge Hstart Hrun.
  unfold unsorted_lattice in Hrun. unfold start_states in *. simpl in *.
  destruct states as [|[starts|s] rest]; try discriminate.
  eapply (while_unvisited_emits PN QL) in Hrun as (Y & Hperm & HY); eauto.
  - exists Y. split; [|done]. simpl in Hperm.
    by rewrite map_map in Hperm.
  - apply Forall_forall. intros n (s & -> & Hs)%list_elem_of_fmap. by apply Hstart.
Qed.

Lemma tc_lattice_step_rank (l : list tuple) (u v : Z * Z * Z) :
  (forall i0 j0 i1 j1 s0 s1 k,
     [i0; j0; i1; j1; s0; s1; k] ∈ l -> i0 + j0 < i1 + j1) ->
  tc (lattice_step l) u v -> u.1.1 + u.1.2 < v.1.1 + v.1.2.
Proof.
  intros Hinc. induction 1 as [u v [k Hk]|u w v [k Hk] _ IH].
  - by apply Hinc in Hk.
  - apply Hinc in Hk. lia.
Qed.

(** C9: for every state machine whose transition deltas are all fixed pairs
    of non-negative integers with [di + dj >= 1], and every feature tensor,
    [_build_lattice] terminates (from [lattice_fuel] on the result no longer
    depends on the fuel and is not [OutOfFuel]), every edge
    [(i0, j0, i1, j1, s0, s1, k)] of the lattice it returns has
    [i0 + j0 < i1 + j1], and the lattice is acyclic. *)
Theorem build_lattice_terminates_acyclic xs sm :
  Forall fixed_delta_ok sm.2 ->
  exists r, r <> OutOfFuel /\
    (forall fuel, (lattice_fuel xs sm <= fuel)%nat -> _build_lattice fuel xs sm = r) /\
    forall l, r = Ok l ->
      (forall i0 j0 i1 j1 s0 s1 k,
         [i0; j0; i1; j1; s0; s1; k] ∈ l -> i0 + j0 < i1 + j1) /\
      acyclic l.
Proof.
  intros Hok. destruct (build_lattice_total xs sm Hok) as (r & Hr & Hfuel).
  exists r. split; [done|]. split; [done|]. intros l ->.
  assert (forall i0 j0 i1 j1 s0 s1 k,
    [i0; j0; i1; j1; s0; s1; k] ∈ l -> i0 + j0 < i1 + j1) as Hinc.
  { specialize (Hfuel _ (Nat.le_refl _)).
    apply build_lattice_Ok in Hfuel as (raw & Hraw & ->).
    apply (unsorted_lattice_emits (fun _ => True)
      (fun t => forall i0 j0 i1 j1 s0 s1 k,
         t = [i0; j0; i1; j1; s0; s1; k] -> i0 + j0 < i1 + j1)) in Hraw
      as (Y & Hperm & HY).
    - intros i0 j0 i1 j1 s0 s1 k Hin.
      rewrite sorted_Permutation, Hperm, elem_of_app in Hin.
      destruct Hin as [(s & ? & _)%list_elem_of_fmap|Hin]; [simplify_eq|].
      rewrite Forall_forall in HY. by eapply HY.
    - intros ns i j s [[i' j'] s'] _ _. split; [done|]. simpl. intros. simplify_eq.
    - intros ns i j s e _ (n & s1 & d & Hn & _ & _ & ->)%elem_of_out_edges.
      apply list_elem_of_lookup_2 in Hn.
      rewrite Forall_forall in Hok. specialize (Hok _ Hn).
      unfold fixed_delta_ok in Hok. simpl in Hok.
      destruct d as [di dj|f]; [|done]. simpl.
      intros ? ? ? ? ? ? ? [= <- <- <- <- _ _ _]. lia.
    - done. }
  split; [done|]. intros u Hu.
  apply (tc_lattice_step_rank _ _ _ Hinc) in Hu. lia.
Qed.

End LatticeResults.

(** C4 (counterexample): on a 2 x 2 tensor and the default state machine of
    one class the node [(1, 1, 0)] is reached along three paths and occurs
    three times in the returned lattice. *)
Lemma build_lattice_duplicates :
  exists l,
    _build_lattice 10 (zero_tensor 2 2 1) (_default_state_machine [0]).1 = Ok l /\
    occurrences [1; 1; 0] l = 3%nat /\ ~ NoDup l.
Proof.
  eexists. split; [vm_compute; reflexivity|]. split; [vm_compute; reflexivity|].
  apply (bool_decide_eq_false_1 (NoDup _)). vm_compute. reflexivity.
Qed.

Lemma build_lattice_terminates_acyclic_witness :
  Forall fixed_delta_ok (_default_state_machine (F:=fterm) [0]).1.2 /\
  exists r, r <> OutOfFuel /\
    (forall fuel,
       (lattice_fuel (zero_tensor 2 2 1) (_default_state_machine [0]).1 <= fuel)%nat ->
       _build_lattice fuel (zero_tensor 2 2 1) (_default_state_machine [0]).1 = r) /\
    forall l, r = Ok l ->
      (forall i0 j0 i1 j1 s0 s1 k,
         [i0; j0; i1; j1; s0; s1; k] ∈ l -> i0 + j0 < i1 + j1) /\
      acyclic l.
Proof.
  assert (Forall fixed_delta_ok (_default_state_machine (F:=fterm) [0]).1.2) as Hok.
  { vm_compute. repeat constructor; intros; discriminate. }
  split; [exact Hok|].
  exact (build_lattice_terminates_acyclic (zero_tensor 2 2 1)
           (_default_state_machine [0]).1 Hok).
Defined.


(** ** Counting tuples *)

Lemma occurrences_app (t : tuple) (l1 l2 : list tuple) :
  occurrences t (l1 ++ l2) = (occurrences t l1 + occurrences t l2)%nat.
Proof. unfold occurrences. by rewrite filter_app, length_app. Qed.

Lemma occurrences_Permutation (t : tuple) (l1 l2 : list tuple) :
  l1 ≡ₚ l2 -> occurrences t l1 = occurrences t l2.
Proof. unfold occurrences. by intros ->. Qed.

Lemma occurrences_not_elem_of (t : tuple) (l : list tuple) :
  t ∉ l -> occurrences t l = 0%nat.
Proof.
  unfold occurrences. induction l as [|u l IH]; [done|].
  rewrite not_elem_of_cons. intros [Hne Hnin].
  rewrite filter_cons_False by done. auto.
Qed.

Lemma occurrences_NoDup (t : tuple) (l : list tuple) :
  NoDup l -> t ∈ l -> occurrences t l = 1%nat.
Proof.
  induction 1 as [|u l Hu Hl IH]; [by intros ?%elem_of_nil|].
  rewrite elem_of_cons. intros [->|Hin]; unfold occurrences.
  - rewrite filter_cons_True by done. cbn [length].
    f_equal. by apply occurrences_not_elem_of.
  - rewrite filter_cons_False by (intros ->; done). by apply IH.
Qed.

(** ** The default state machine *)

Section DefaultMachine.
Context {F : Type} `{FloatOps F} {C : Type}.
Implicit Types (classes : list C).

Lemma py_dict_enumerate classes (k : Z) :
  py_dict (imap (fun i c => (Z.of_nat i, c)) classes) !! k =
  if decide (0 <= k) then classes !! Z.to_nat k else None.
Proof.
  unfold py_dict. induction classes as [|c classes IH] using rev_ind.
  - simpl. rewrite lookup_empty. by destruct (decide _).
  - rewrite imap_app, foldl_app. simpl. rewrite Nat.add_0_r.
    destruct (decide (k = Z.of_nat (length classes))) as [->|Hne].
    + rewrite lookup_insert_eq, decide_True by lia.
      rewrite Nat2Z.id. by rewrite list_lookup_middle.
    + rewrite lookup_insert_ne by done. rewrite IH.
      destruct (decide (0 <= k)); [|done].
      destruct (decide (Z.to_nat k < length classes)%nat).
      * by rewrite lookup_app_l.
      * rewrite !lookup_ge_None_2; [done| |lia].
        rewrite length_app. simpl. lia.
Qed.

Lemma filter_src_seqZ (d : delta (F:=F)) (i m : Z) (len : nat) :
  @filter (transition (F:=F)) (list (transition (F:=F))) _
    (fun t => src t = i) _ (map (fun k => (k, k, d)) (seqZ m (Z.of_nat len))) =
  if decide (m <= i < m + Z.of_nat len) then [(i, i, d)] else [].
Proof.
  revert m; induction len as [|len IH]; intros m.
  - rewrite seqZ_nil by lia. simpl. by rewrite decide_False by lia.
  - rewrite seqZ_cons by lia.
    replace (Z.pred (Z.of_nat (S len))) with (Z.of_nat len) by lia.
    simpl. rewrite filter_cons. unfold src at 1. simpl. rewrite IH.
    destruct (decide (m = i)) as [->|].
    + rewrite decide_False, decide_True by lia. done.
    + destruct (decide (Z.succ m <= i < Z.succ m + Z.of_nat len)).
      * by rewrite decide_True by lia.
      * by rewrite decide_False by lia.
Qed.

Lemma default_transitions classes (t : transition (F:=F)) :
  t ∈ (_default_state_machine classes).1.2 <->
  exists i, 0 <= i < Z.of_nat (length classes) /\
    (t = (i, i, Fixed 1 1) \/ t = (i, i, Fixed 0 1) \/ t = (i, i, Fixed 1 0)).
Proof.
  simpl. rewrite !elem_of_app. split.
  - intros [Ht | [Ht | Ht]]; apply list_elem_of_fmap in Ht as (i & -> & Hi);
      apply elem_of_seqZ in Hi; exists i; (split; [lia|]); auto.
  - intros (i & Hi & [-> | [-> | ->]]); [left|right; left|right; right];
      apply list_elem_of_fmap; exists i; (split; [done|]);
      apply elem_of_seqZ; lia.
Qed.

Lemma default_edit_machine classes :
  edit_machine (F:=F) (_default_state_machine classes).1.
Proof.
  exists (seqZ 0 (Z.of_nat (length classes))). split; [done|].
  split; [apply NoDup_seqZ|].
  intros t (i & Hi & Ht)%default_transitions.
  rewrite elem_of_seqZ.
  destruct Ht as [-> | [-> | ->]]; unfold src, dst; simpl; (split; [done|]);
    (split; [lia|]); auto.
Qed.

Lemma edit_machine_fixed_delta_ok (sm : StateMachine (F:=F)) :
  edit_machine sm -> Forall fixed_delta_ok sm.2.
Proof.
  intros (starts & _ & _ & Hts). apply Forall_forall. intros t Ht.
  destruct (Hts t Ht) as (_ & _ & Hd). unfold fixed_delta_ok.
  destruct Hd as [-> | [-> | ->]]; lia.
Qed.

End DefaultMachine.

Section EditLattice.
Context {F : Type} `{FloatOps F}.
Implicit Types (xs : ndarray3 (F:=F)) (sm : StateMachine (F:=F)).

Lemma unsorted_lattice_returns xs sm starts rest :
  sm.1 = StartTuple starts :: rest ->
  Forall fixed_delta_ok sm.2 ->
  exists raw, forall fuel,
    (lattice_fuel xs sm <= fuel)%nat -> unsorted_lattice fuel xs sm = Ok raw.
Proof.
  intros Hstart Hok.
  destruct (unsorted_lattice_total xs sm Hok) as (r & Hr & Hfuel).
  destruct r as [raw|e|]; [by exists raw| |done].
  specialize (Hfuel _ (Nat.le_refl _)). destruct sm as [states ts].
  simpl in Hstart. subst states. unfold unsorted_lattice in Hfuel.
  exfalso. revert Hfuel. generalize (lattice_fuel xs (StartTuple starts :: rest, ts)).
  generalize (@nil tuple). generalize (map (fun s : Z => (0, 0, s)) starts).
  intros unv lat fuel. revert lat unv.
  induction fuel as [|fuel IH]; intros lat [|[[i j] s] unv]; simpl; try done.
  apply IH.
Qed.

Lemma Sorted_seqZ (m : Z) (len : nat) : Sorted Z.le (seqZ m (Z.of_nat len)).
Proof.
  revert m; induction len as [|len IH]; intros m.
  - rewrite seqZ_nil by lia. constructor.
  - rewrite seqZ_cons by lia.
    replace (Z.pred (Z.of_nat (S len))) with (Z.of_nat len) by lia.
    constructor; [apply IH|].
    destruct len as [|len]; [rewrite seqZ_nil by lia; constructor|].
    rewrite seqZ_cons by lia. constructor. lia.
Qed.

Lemma Sorted_start_nodes (n : nat) :
  Sorted tuple_le (map (fun s => [0; 0; s]) (seqZ 0 (Z.of_nat n))).
Proof.
  apply (Sorted_fmap _ Z.le); [|apply Sorted_seqZ].
  intros a b Hab. unfold tuple_le. simpl.
  destruct (Z.ltb_spec a b); [done|].
  destruct (Z.ltb_spec b a); [lia|done].
Qed.

(** The successors and edges of a node with non-negative coordinates, under
    transitions that satisfy [fixed_delta_ok]. *)
Lemma successor_in_bounds xs sm ns i j s c :
  Forall fixed_delta_ok sm.2 -> 0 <= i -> 0 <= j ->
  c ∈ successors xs (Z.of_nat (dimI xs)) (Z.of_nat (dimJ xs)) ns i j s sm.2 0 ->
  0 <= c.1.1 < Z.of_nat (dimI xs) /\ 0 <= c.1.2 < Z.of_nat (dimJ xs) /\
  1 <= c.1.1 + c.1.2.
Proof.
  intros Hok Hi Hj (s1 & d & Hin & Hbi & Hbj & ->)%elem_of_successors.
  rewrite Forall_forall in Hok. specialize (Hok _ Hin).
  unfold fixed_delta_ok in Hok. simpl in Hok.
  destruct d as [di dj|f]; [|done]. simpl in *. lia.
Qed.

(** C7: for every state machine whose only transitions are match, insertion
    and deletion self-transitions on its per-class start states, and every
    tensor with [I >= 1] and [J >= 1], [_build_lattice] returns a lattice in
    which each start node [(0, 0, s)] occurs exactly once, no other node sits
    at [(0, 0)], and every node [(i, j, s)] has [0 <= i < I] and
    [0 <= j < J]. *)
Theorem edit_lattice_start_nodes_in_bounds xs sm :
  edit_machine sm -> (1 <= dimI xs)%nat -> (1 <= dimJ xs)%nat ->
  exists l,
    (forall fuel, (lattice_fuel xs sm <= fuel)%nat -> _build_lattice fuel xs sm = Ok l) /\
    (forall s, s ∈ start_states sm -> occurrences [0; 0; s] l = 1%nat) /\
    (forall s, [0; 0; s] ∈ l -> s ∈ start_states sm) /\
    (forall i j s, [i; j; s] ∈ l ->
       0 <= i < Z.of_nat (dimI xs) /\ 0 <= j < Z.of_nat (dimJ xs)).
Proof.
  intros Hedit HI HJ.
  pose proof (edit_machine_fixed_delta_ok sm Hedit) as Hok.
  destruct Hedit as (starts & Hstates & Hnodup & _).
  destruct (unsorted_lattice_returns xs sm starts [] Hstates Hok) as [raw Hraw].
  pose proof (Hraw _ (Nat.le_refl _)) as Hrun.
  apply (unsorted_lattice_emits (fun n => 0 <= n.1.1 /\ 0 <= n.1.2)
    (fun t => forall i j s, t = [i; j; s] ->
       0 <= i < Z.of_nat (dimI xs) /\ 0 <= j < Z.of_nat (dimJ xs) /\ 1 <= i + j))
    in Hrun as (Y & Hperm & HY).
  - assert (start_states sm = starts) as Hss by (unfold start_states; by rewrite Hstates).
    rewrite Hss in *. rewrite Forall_forall in HY.
    assert (forall s, [0; 0; s] ∉ Y) as HnY.
    { intros s Hin. specialize (HY _ Hin 0 0 s eq_refl). lia. }
    exists (sorted raw). split; [|split; [|split]].
    + intros fuel Hfuel. unfold _build_lattice. by rewrite (Hraw fuel Hfuel).
    + intros s Hs.
      rewrite (occurrences_Permutation _ _ _ (sorted_Permutation raw)),
        (occurrences_Permutation _ _ _ Hperm), occurrences_app,
        (occurrences_not_elem_of _ Y (HnY s)), Nat.add_0_r.
      apply occurrences_NoDup.
      * apply NoDup_fmap_2_strong; [|done]. by intros ? ? _ _ [=].
      * apply list_elem_of_fmap. eauto.
    + intros s. rewrite sorted_Permutation, Hperm, elem_of_app.
      intros [(s' & [= ->] & Hs')%list_elem_of_fmap|Hin]; [done|].
      by apply HnY in Hin.
    + intros i j s. rewrite sorted_Permutation, Hperm, elem_of_app.
      intros [(s' & [= -> -> _] & _)%list_elem_of_fmap|Hin]; [lia|].
      specialize (HY _ Hin i j s eq_refl). lia.
  - intros ns i j s c [Hi Hj] Hc. simpl in *.
    destruct (successor_in_bounds xs sm ns i j s c Hok Hi Hj Hc) as (? & ? & ?).
    split; [lia|]. destruct c as [[i' j'] s']. simpl in *.
    intros ? ? ? [= <- <- <-]. lia.
  - intros ns i j s e _ (n & s1 & d & _ & _ & _ & ->)%elem_of_out_edges.
    intros. simplify_eq.
  - intros s _. simpl. lia.
Qed.

(** The lattice of a tensor with [I = 0] or [J = 0]: the start nodes and
    nothing else. *)
Lemma degenerate_unsorted_lattice xs sm :
  edit_machine sm ->
  dimI xs = 0%nat \/ dimJ xs = 0%nat ->
  exists raw,
    (forall fuel, (lattice_fuel xs sm <= fuel)%nat ->
       unsorted_lattice fuel xs sm = Ok raw) /\
    raw ≡ₚ map (fun s => [0; 0; s]) (start_states sm).
Proof.
  intros Hedit Hdim.
  pose proof (edit_machine_fixed_delta_ok sm Hedit) as Hok.
  destruct Hedit as (starts & Hstates & _ & _).
  destruct (unsorted_lattice_returns xs sm starts [] Hstates Hok) as [raw Hraw].
  exists raw. split; [done|].
  pose proof (Hraw _ (Nat.le_refl _)) as Hrun.
  apply (unsorted_lattice_emits (fun n => 0 <= n.1.1 /\ 0 <= n.1.2)
    (fun _ => False)) in Hrun as (Y & Hperm & HY).
  - destruct Y as [|t Y]; [|by apply Forall_cons in HY as [[] _]].
    by rewrite app_nil_r in Hperm.
  - intros ns i j s c [Hi Hj] Hc. simpl in *.
    destruct (successor_in_bounds xs _ ns i j s c Hok Hi Hj Hc) as (? & ? & ?). lia.
  - intros ns i j s e [Hi Hj] (n & s1 & d & Hn & Hbi & Hbj & ->)%elem_of_out_edges.
    simpl in *. apply list_elem_of_lookup_2 in Hn.
    rewrite Forall_forall in Hok. specialize (Hok _ Hn).
    unfold fixed_delta_ok in Hok. simpl in Hok.
    destruct d as [di dj|f]; [|done]. simpl in *. lia.
  - intros s _. simpl. lia.
Qed.

(** A tensor with [string1_length = 0] or [string2_length = 0]: under the
    default state machine [_build_lattice] returns exactly the start nodes
    [(0, 0, s)], one per class and in the order of the states, and no
    edge. *)
Theorem degenerate_lattice {C : Type} (cs : list C) xs :
  dimI xs = 0%nat \/ dimJ xs = 0%nat ->
  forall fuel,
    (lattice_fuel xs (_default_state_machine cs).1 <= fuel)%nat ->
    _build_lattice fuel xs (_default_state_machine cs).1 =
    Ok (map (fun s => [0; 0; s]) (seqZ 0 (Z.of_nat (length cs)))).
Proof.
  intros Hdim fuel Hfuel.
  destruct (degenerate_unsorted_lattice xs _ (default_edit_machine cs) Hdim)
    as (raw & Hraw & Hperm).
  unfold _build_lattice. rewrite (Hraw fuel Hfuel).
  change (Ok (sorted raw) =
          Ok (map (fun s => [0; 0; s]) (seqZ 0 (Z.of_nat (length cs))))).
  f_equal.
  apply (Sorted_unique tuple_le); [apply sorted_Sorted|apply Sorted_start_nodes|].
  by rewrite sorted_Permutation, Hperm.
Qed.

End EditLattice.

Section SortedLattice.
Context {F : Type} `{FloatOps F}.

(** C4 (amended): a lattice returned by [_build_lattice] is sorted
    lexicographically and is a permutation of the tuples the worklist loop
    emitted: every tuple occurs in it as many times as it was emitted,
    nothing is de-duplicated. [_build_lattice] returns a lattice whenever the
    list of states begins with a tuple of start states and the deltas
    satisfy [fixed_delta_ok]. *)
Theorem build_lattice_sorted_keeps_duplicates (xs : ndarray3 (F:=F))
    (sm : StateMachine (F:=F)) :
  (forall fuel l, _build_lattice fuel xs sm = Ok l ->
     Sorted tuple_le l /\
     exists raw, unsorted_lattice fuel xs sm = Ok raw /\ l ≡ₚ raw /\
       forall t, occurrences t l = occurrences t raw) /\
  (forall starts rest,
     sm.1 = StartTuple starts :: rest -> Forall fixed_delta_ok sm.2 ->
     exists l, forall fuel,
       (lattice_fuel xs sm <= fuel)%nat -> _build_lattice fuel xs sm = Ok l).
Proof.
  split.
  - intros fuel l (raw & Hraw & ->)%build_lattice_Ok.
    split; [apply sorted_Sorted|]. exists raw. split; [done|].
    split; [apply sorted_Permutation|].
    intros t. apply occurrences_Permutation, sorted_Permutation.
  - intros starts rest Hstates Hok.
    destruct (unsorted_lattice_returns xs sm starts rest Hstates Hok) as [raw Hraw].
    exists (sorted raw). intros fuel Hfuel.
    unfold _build_lattice. by rewrite (Hraw fuel Hfuel).
Qed.

End SortedLattice.

Lemma build_lattice_sorted_keeps_duplicates_witness :
  _build_lattice 10 (zero_tensor 2 2 1) (_default_state_machine [0]).1
    = Ok [[0; 0; 0]; [0; 0; 0; 1; 0; 0; 2]; [0; 0; 1; 0; 0; 0; 3];
          [0; 0; 1; 1; 0; 0; 1]; [0; 1; 0]; [0; 1; 1; 1; 0; 0; 3];
          [1; 0; 0]; [1; 0; 1; 1; 0; 0; 2]; [1; 1; 0]; [1; 1; 0]; [1; 1; 0]] /\
  (Sorted tuple_le
     [[0; 0; 0]; [0; 0; 0; 1; 0; 0; 2]; [0; 0; 1; 0; 0; 0; 3];
      [0; 0; 1; 1; 0; 0; 1]; [0; 1; 0]; [0; 1; 1; 1; 0; 0; 3];
      [1; 0; 0]; [1; 0; 1; 1; 0; 0; 2]; [1; 1; 0]; [1; 1; 0]; [1; 1; 0]] /\
   exists raw,
     unsorted_lattice 10 (zero_tensor 2 2 1) (_default_state_machine [0]).1 = Ok raw /\
     [[0; 0; 0]; [0; 0; 0; 1; 0; 0; 2]; [0; 0; 1; 0; 0; 0; 3];
      [0; 0; 1; 1; 0; 0; 1]; [0; 1; 0]; [0; 1; 1; 1; 0; 0; 3];
      [1; 0; 0]; [1; 0; 1; 1; 0; 0; 2]; [1; 1; 0]; [1; 1; 0]; [1; 1; 0]] ≡ₚ raw /\
     forall t,
       occurrences t
         [[0; 0; 0]; [0; 0; 0; 1; 0; 0; 2]; [0; 0; 1; 0; 0; 0; 3];
          [0; 0; 1; 1; 0; 0; 1]; [0; 1; 0]; [0; 1; 1; 1; 0; 0; 3];
          [1; 0; 0]; [1; 0; 1; 1; 0; 0; 2]; [1; 1; 0]; [1; 1; 0]; [1; 1; 0]]
       = occurrences t raw) /\
  (_default_state_machine (F:=fterm) [0]).1.1 = StartTuple [0] :: [] /\
  Forall fixed_delta_ok (_default_state_machine (F:=fterm) [0]).1.2 /\
  exists l, forall fuel,
    (lattice_fuel (zero_tensor 2 2 1) (_default_state_machine [0]).1 <= fuel)%nat ->
    _build_lattice fuel (zero_tensor 2 2 1) (_default_state_machine [0]).1 = Ok l.
Proof.
  assert (_build_lattice 10 (zero_tensor 2 2 1) (_default_state_machine [0]).1
    = Ok [[0; 0; 0]; [0; 0; 0; 1; 0; 0; 2]; [0; 0; 1; 0; 0; 0; 3];
          [0; 0; 1; 1; 0; 0; 1]; [0; 1; 0]; [0; 1; 1; 1; 0; 0; 3];
          [1; 0; 0]; [1; 0; 1; 1; 0; 0; 2]; [1; 1; 0]; [1; 1; 0]; [1; 1; 0]])
    as Hrun by (vm_compute; reflexivity).
  assert ((_default_state_machine (F:=fterm) [0]).1.1 = StartTuple [0] :: [])
    as Hstates by reflexivity.
  assert (Forall fixed_delta_ok (_default_state_machine (F:=fterm) [0]).1.2) as Hok
    by (vm_compute; repeat constructor; intros; discriminate).
  split; [exact Hrun|]. split.
  - exact (proj1 (build_lattice_sorted_keeps_duplicates (zero_tensor 2 2 1)
                    (_default_state_machine [0]).1) 10%nat _ Hrun).
  - split; [exact Hstates|]. split; [exact Hok|].
    exact (proj2 (build_lattice_sorted_keeps_duplicates (zero_tensor 2 2 1)
                    (_default_state_machine [0]).1) [0] [] Hstates Hok).
Defined.

Section DefaultMachineSpec.
Context {F : Type} `{FloatOps F} {C : Type}.

(** C8: for every non-empty list of classes, [_default_state_machine] returns
    a state machine whose states are one tuple of start states, one per
    class (class number [i] has start state [i]), whose transitions on a
    start state [i] are exactly the three self-transitions with deltas
    [(1, 1)], [(0, 1)] and [(1, 0)], every transition being one of these, and
    a [states_to_classes] dictionary that maps each start state to its
    class. *)
Theorem default_state_machine_spec (classes : list C) :
  classes <> [] ->
  let sm := (_default_state_machine (F:=F) classes).1 in
  let states_to_classes := (_default_state_machine (F:=F) classes).2 in
  sm.1 = [StartTuple (seqZ 0 (Z.of_nat (length classes)))] /\
  NoDup (start_states sm) /\
  length (start_states sm) = length classes /\
  (forall (i : nat) c, classes !! i = Some c ->
     Z.of_nat i ∈ start_states sm /\
     filter (fun t => src t = Z.of_nat i) sm.2 =
       [(Z.of_nat i, Z.of_nat i, Fixed 1 1);
        (Z.of_nat i, Z.of_nat i, Fixed 0 1);
        (Z.of_nat i, Z.of_nat i, Fixed 1 0)] /\
     states_to_classes !! Z.of_nat i = Some c) /\
  (forall t, t ∈ sm.2 -> src t = dst t /\ src t ∈ start_states sm) /\
  (forall s, states_to_classes !! s =
     if decide (0 <= s) then classes !! Z.to_nat s else None).
Proof.
  intros _ sm states_to_classes.
  assert (start_states sm = seqZ 0 (Z.of_nat (length classes))) as Hss by done.
  rewrite Hss.
  split; [done|]. split; [apply NoDup_seqZ|].
  split; [by rewrite length_seqZ, Nat2Z.id|].
  split; [|split].
  - intros i c Hi. pose proof (lookup_lt_Some _ _ _ Hi) as Hlt.
    split; [apply elem_of_seqZ; lia|]. split.
    + subst sm. simpl. rewrite !filter_app, !filter_src_seqZ.
      by rewrite !decide_True by lia.
    + subst states_to_classes. simpl. rewrite py_dict_enumerate.
      rewrite decide_True by lia. by rewrite Nat2Z.id.
  - intros t (i & Hi & Ht)%default_transitions. rewrite elem_of_seqZ.
    destruct Ht as [-> | [-> | ->]]; unfold src, dst; simpl; (split; [done|lia]).
  - intros s. subst states_to_classes. simpl. apply py_dict_enumerate.
Qed.

End DefaultMachineSpec.

Lemma default_state_machine_spec_witness :
  [7; 9] <> [] /\
  let sm := (_default_state_machine (F:=fterm) [7; 9]).1 in
  let states_to_classes := (_default_state_machine (F:=fterm) [7; 9]).2 in
  sm.1 = [StartTuple (seqZ 0 (Z.of_nat (length [7; 9])))] /\
  NoDup (start_states sm) /\
  length (start_states sm) = length [7; 9] /\
  (forall (i : nat) c, [7; 9] !! i = Some c ->
     Z.of_nat i ∈ start_states sm /\
     filter (fun t => src t = Z.of_nat i) sm.2 =
       [(Z.of_nat i, Z.of_nat i, Fixed 1 1);
        (Z.of_nat i, Z.of_nat i, Fixed 0 1);
        (Z.of_nat i, Z.of_nat i, Fixed 1 0)] /\
     states_to_classes !! Z.of_nat i = Some c) /\
  (forall t, t ∈ sm.2 -> src t = dst t /\ src t ∈ start_states sm) /\
  (forall s, states_to_classes !! s =
     if decide (0 <= s) then [7; 9] !! Z.to_nat s else None).
Proof.
  split; [discriminate|].
  apply (default_state_machine_spec (F:=fterm) [7; 9]). discriminate.
Defined.

Lemma edit_lattice_start_nodes_in_bounds_witness :
  edit_machine (_default_state_machine (F:=fterm) [7; 9]).1 /\
  (1 <= dimI (zero_tensor 2 3 1))%nat /\ (1 <= dimJ (zero_tensor 2 3 1))%nat /\
  exists l,
    (forall fuel,
       (lattice_fuel (zero_tensor 2 3 1) (_default_state_machine [7; 9]).1 <= fuel)%nat ->
       _build_lattice fuel (zero_tensor 2 3 1) (_default_state_machine [7; 9]).1 = Ok l) /\
    (forall s, s ∈ start_states (_default_state_machine (F:=fterm) [7; 9]).1 ->
       occurrences [0; 0; s] l = 1%nat) /\
    (forall s, [0; 0; s] ∈ l ->
       s ∈ start_states (_default_state_machine (F:=fterm) [7; 9]).1) /\
    (forall i j s, [i; j; s] ∈ l ->
       0 <= i < Z.of_nat (dimI (zero_tensor 2 3 1)) /\
       0 <= j < Z.of_nat (dimJ (zero_tensor 2 3 1))).
Proof.
  pose proof (default_edit_machine (F:=fterm) [7; 9]) as Hedit.
  assert (1 <= dimI (zero_tensor 2 3 1))%nat as HI by (simpl; lia).
  assert (1 <= dimJ (zero_tensor 2 3 1))%nat as HJ by (simpl; lia).
  split; [exact Hedit|]. split; [exact HI|]. split; [exact HJ|].
  exact (edit_lattice_start_nodes_in_bounds (zero_tensor 2 3 1)
           (_default_state_machine [7; 9]).1 Hedit HI HJ).
Defined.

(** C3 (failing input): with two classes the matrix of
    [_initialize_parameters] has [1 + 6 = 7] columns, since it counts the
    tuple of start states as one state, while [_build_lattice] counts two
    states and gives the deletion edge of class 1 the column [2 + 5 = 7],
    which is not a column of the matrix. *)
Theorem edge_column_out_of_range :
  exists l,
    _build_lattice 10 (zero_tensor 2 1 1) (_default_state_machine [0; 1]).1 = Ok l /\
    [0; 0; 1; 0; 1; 1; 7] ∈ l /\
    cols (_initialize_parameters (_default_state_machine (F:=fterm) [0; 1]).1 1) = 7%nat /\
    column (_initialize_parameters (_default_state_machine (F:=fterm) [0; 1]).1 1) 7
      = Raise IndexError.
Proof.
  eexists. split; [vm_compute; reflexivity|].
  split; [|split; [reflexivity|vm_compute; reflexivity]].
  apply (bool_decide_eq_true_1 (_ ∈ _)). vm_compute. reflexivity.
Qed.

(** ** The forward pass *)

Lemma bind_not_OutOfFuel {A B : Type} (m : Res A) (f : A -> Res B) :
  m <> OutOfFuel -> (forall a, f a <> OutOfFuel) -> m ≫= f <> OutOfFuel.
Proof. destruct m; simpl; auto. Qed.

Section ForwardPass.
Context {F : Type} `{FloatOps F} {C : Type} `{EqDecision C}.
Implicit Types (xs : ndarray3 (F:=F)) (params : ndarray2 (F:=F))
  (alpha : gmap tuple F) (self : Model (F:=F) (C:=C)).

Lemma axis_index_not_OutOfFuel (n : nat) (i : Z) : axis_index n i <> OutOfFuel.
Proof. unfold axis_index. by repeat destruct (decide _). Qed.

Lemma slice3_not_OutOfFuel xs i j : slice3 xs i j <> OutOfFuel.
Proof.
  unfold slice3. apply bind_not_OutOfFuel; [apply axis_index_not_OutOfFuel|].
  intros i'. apply bind_not_OutOfFuel; [apply axis_index_not_OutOfFuel|done].
Qed.

Lemma column_not_OutOfFuel params c : column params c <> OutOfFuel.
Proof.
  unfold column. apply bind_not_OutOfFuel; [apply axis_index_not_OutOfFuel|done].
Qed.

Lemma dot_not_OutOfFuel (u v : list F) : dot u v <> OutOfFuel.
Proof. unfold dot. by destruct (decide _). Qed.

Lemma forward_step_not_OutOfFuel xs params alpha t :
  forward_step xs params alpha t <> OutOfFuel.
Proof.
  unfold forward_step. destruct (decide _).
  - apply bind_not_OutOfFuel; [by destruct t as [|? [|? [|? [|? ?]]]]|].
    intros [[i j] s]. destruct (defaultdict_get alpha t) as [a alpha1].
    apply bind_not_OutOfFuel; [apply slice3_not_OutOfFuel|]. intros u.
    apply bind_not_OutOfFuel; [apply column_not_OutOfFuel|]. intros v.
    apply bind_not_OutOfFuel; [apply dot_not_OutOfFuel|done].
  - apply bind_not_OutOfFuel.
    { unfold unpack7. by repeat (destruct t as [|? t]; try done). }
    intros [[[[[[i0 j0] i1] j1] s0] s1] k].
    apply bind_not_OutOfFuel; [apply slice3_not_OutOfFuel|]. intros u.
    apply bind_not_OutOfFuel; [apply column_not_OutOfFuel|]. intros v.
    apply bind_not_OutOfFuel; [apply dot_not_OutOfFuel|]. intros d.
    destruct (defaultdict_get alpha [i0; j0; s0]) as [a alpha1].
    by destruct (defaultdict_get _ [i1; j1; s1]).
Qed.


(** A tuple that is not of length 7 stops the pass: a node, of length 3,
    is sent to the branch that unpacks an edge. *)
Lemma forward_step_raises xs params alpha t :
  length t <> 7%nat -> forward_step xs params alpha t = Raise ValueError.
Proof.
  intros Hlen. unfold forward_step. destruct (decide _) as [Hlt|Hge].
  - by destruct t as [|? [|? [|? ?]]]; simpl in *; try lia.
  - unfold unpack7. by repeat (destruct t as [|? t]; try done).
Qed.


End ForwardPass.


(** C1 (failing input): on the lattice of a 1 x 1 tensor and one class, the
    single start node [(0, 0, 0)] has length 3, fails the test
    [len(node) < 3] and is unpacked as an edge, so that the forward pass
    raises [ValueError] and no alpha is initialized. On an edge the potential
    is [exp(dot * alpha[source])], not [exp(dot) * alpha[source]]. *)
Theorem forward_pass_raises_on_start_node :
  (exists m,
     __init__ 10 (_default_state_machine [0]).1 [0] (zero_tensor 1 1 1) 0 = Ok m /\
     _lattice m = [[0; 0; 0]] /\
     (forward_backward m (_initialize_parameters (_default_state_machine [0]).1 1)).1
       = Raise ValueError) /\
  (exists alpha,
     forward_step (zero_tensor 1 2 1) (zeros 1 4) {[ [0; 0; 0] := TConst 5 ]}
       [0; 0; 0; 1; 0; 0; 2] = Ok alpha /\
     alpha !! [0; 1; 0] =
       Some (TAdd (TConst 0)
               (TExp (TMul (TAdd (TMul (TConst 0) (TConst 0)) (TConst 0))
                        (TConst 5))))).
Proof.
  split.
  - eexists. split; [vm_compute; reflexivity|]. split; reflexivity.
  - eexists. split; [vm_compute; reflexivity|]. vm_compute. reflexivity.
Qed.

(** C5 (failing input): the model of a 0 x 1 tensor with one class has the
    lattice [[(0, 0, 0)]]. Processing the example raises [ValueError] in
    [forward_backward], at the start node, and so does the objective on it:
    no log-likelihood and no gradient comes out of it, and the model has no
    attribute [ll] that could hold one. *)
Theorem degenerate_example_raises :
  exists m,
    __init__ 10 (_default_state_machine [0]).1 [0] (zero_tensor 0 1 1) 0 = Ok m /\
    _lattice m = [[0; 0; 0]] /\
    (forward_backward m (_initialize_parameters (_default_state_machine [0]).1 1)).1
      = Raise ValueError /\
    _objective [m] (zeros 1 4)
      (_initialize_parameters (_default_state_machine [0]).1 1) = Raise ValueError /\
    getattr_float m "ll" = Raise AttributeError.
Proof.
  eexists. split; [vm_compute; reflexivity|]. repeat split; reflexivity.
Qed.

(** ** Training *)

Section Fit.
Context {F : Type} `{FloatOps F} {C : Type} `{EqDecision C}.
Context {OptimizerResult : Type}.
Context (fmin_l_bfgs_b :
  (ndarray2 (F:=F) -> Res (F * ndarray2 (F:=F))) -> ndarray2 (F:=F) ->
  Res OptimizerResult).
Context (list_of_set : list C -> list C).

(** C6: for every call of [fit] in which the number of feature tensors
    differs from the number of labels, [fit] raises its exception about the
    number of training points, the [Hacrf] object is left as it was, and no
    [_Model] has been constructed, so that no lattice has been built; this
    for every optimizer and every order of the class list. *)
Theorem fit_mismatch_raises (fuel : nat) (self : Hacrf)
    (X : list (ndarray3 (F:=F))) (ys : list C) :
  length X <> length ys ->
  fit fmin_l_bfgs_b list_of_set fuel self X ys =
  {| fit_self := self; fit_models := [];
     fit_result := Raise (Exception mismatch_message) |}.
Proof. intros Hlen. unfold fit. by rewrite decide_True. Qed.

End Fit.

Lemma fit_mismatch_raises_witness :
  length [zero_tensor 1 1 1; zero_tensor 2 2 1; zero_tensor 1 2 1] <> length [0; 1] /\
  fit (fun objective x0 => objective x0) remove_dups 10 Hacrf_init
    [zero_tensor 1 1 1; zero_tensor 2 2 1; zero_tensor 1 2 1] [0; 1] =
  {| fit_self := Hacrf_init; fit_models := [];
     fit_result := Raise (Exception mismatch_message) |}.
Proof.
  assert (length [zero_tensor 1 1 1; zero_tensor 2 2 1; zero_tensor 1 2 1]
          <> length [0; 1]) as Hlen by (simpl; lia).
  split; [exact Hlen|].
  exact (fit_mismatch_raises (fun objective x0 => objective x0) remove_dups
           10 Hacrf_init
           [zero_tensor 1 1 1; zero_tensor 2 2 1; zero_tensor 1 2 1] [0; 1] Hlen).
Defined.

(** C2 (failing input): for the training set of one 1 x 1 tensor with label
    0, [fit] builds one model; the objective evaluated on it raises
    [ValueError] in [forward_backward], so that no log-likelihood and no
    gradient is obtained, summed or returned, and [fit] raises as soon as
    the optimizer evaluates the objective. The model has neither the method
    [add_derivative] nor the attribute [ll] that the objective asks for. *)
Theorem objective_raises :
  exists m,
    make_models 10 (_default_state_machine [0]).1 [0] [zero_tensor 1 1 1] [0]
      = ([m], Ok [m]) /\
    _objective [m] (zeros 1 4)
      (_initialize_parameters (_default_state_machine [0]).1 1) = Raise ValueError /\
    call_method m "add_derivative" (zeros 1 4) = Raise AttributeError /\
    getattr_float m "ll" = Raise AttributeError /\
    fit_result (fit (fun objective x0 => objective x0) remove_dups 10
                  Hacrf_init [zero_tensor 1 1 1] [0]) = Raise ValueError.
Proof.
  eexists. split; [vm_compute; reflexivity|].
  repeat split; reflexivity.
Qed.

(** * Further properties of the lattice *)

Section LatticeStructure.
Context {F : Type} `{FloatOps F}.
Implicit Types (xs : ndarray3 (F:=F)) (sm : StateMachine (F:=F))
  (ts : list (transition (F:=F))) (lat : list tuple) (unv : list node).

(** An invariant of the pair of [lattice] and [unvisited_nodes] that each
    turn of the worklist loop keeps holds of the returned lattice. *)
Lemma while_unvisited_invariant (Inv : list tuple -> list node -> Prop)
    xs I J ns ts :
  (forall lat i j s unv, Inv lat ((i, j, s) :: unv) ->
     Inv ((lat ++ [[i; j; s]]) ++ out_edges xs I J ns i j s ts 0)
         (unv ++ successors xs I J ns i j s ts 0)) ->
  forall fuel lat unv l,
    Inv lat unv -> while_unvisited fuel xs I J ns ts lat unv = Ok l -> Inv l [].
Proof.
  intros Hstep fuel. induction fuel as [|fuel IH];
    intros lat [|[[i j] s] unv] l Hinv Hrun; simpl in Hrun; try discriminate.
  - by injection Hrun as <-.
  - by injection Hrun as <-.
  - rewrite for_transitions_app in Hrun. simpl in Hrun.
    eapply IH; [|exact Hrun]. by apply Hstep.
Qed.

Lemma unsorted_lattice_while fuel xs sm raw :
  unsorted_lattice fuel xs sm = Ok raw ->
  while_unvisited fuel xs (Z.of_nat (dimI xs)) (Z.of_nat (dimJ xs))
    (n_states_of sm) sm.2 [] (map (fun s => (0, 0, s)) (start_states sm)) = Ok raw.
Proof.
  destruct sm as [states ts]. unfold unsorted_lattice, n_states_of, start_states.
  simpl. by destruct states as [|[starts|s] rest].
Qed.

Lemma out_edge_successor xs I J ns i j s ts k i0 j0 i1 j1 s0 s1 c :
  [i0; j0; i1; j1; s0; s1; c] ∈ out_edges xs I J ns i j s ts k ->
  (i1, j1, s1) ∈ successors xs I J ns i j s ts k.
Proof.
  revert k; induction ts as [|[[t0 t1] d] ts IH]; intros k.
  - unfold out_edges; simpl. by intros ?%elem_of_nil.
  - unfold transition in *.
    rewrite out_edges_cons, successors_cons, !elem_of_app. intros [He|He].
    + left. destruct (decide _); [|by apply elem_of_nil in He].
      apply list_elem_of_singleton in He. simplify_eq. by left.
    + right. by apply IH.
Qed.

Lemma successor_out_edge xs I J ns i j s ts k i1 j1 s1 :
  (i1, j1, s1) ∈ successors xs I J ns i j s ts k ->
  exists c, [i; j; i1; j1; s; s1; c] ∈ out_edges xs I J ns i j s ts k.
Proof.
  revert k; induction ts as [|[[t0 t1] d] ts IH]; intros k.
  - unfold successors; simpl. by intros ?%elem_of_nil.
  - unfold transition in *.
    rewrite successors_cons, elem_of_app. intros [Hc|Hc].
    + destruct (decide _) as [(-> & ? & ?)|] eqn:Hdec; [|by apply elem_of_nil in Hc].
      apply list_elem_of_singleton in Hc. simplify_eq.
      exists (k + ns). rewrite out_edges_cons, Hdec. by left.
    + destruct (IH _ Hc) as [c Hc']. exists c.
      rewrite out_edges_cons, elem_of_app. by right.
Qed.

Lemma out_edges_complete xs I J ns i j s ts k (n : nat) s1 d :
  ts !! n = Some (s, s1, d) ->
  i + (eval_delta d i j xs).1 < I -> j + (eval_delta d i j xs).2 < J ->
  [i; j; i + (eval_delta d i j xs).1; j + (eval_delta d i j xs).2; s; s1;
   k + Z.of_nat n + ns] ∈ out_edges xs I J ns i j s ts k.
Proof.
  revert k n; induction ts as [|[[t0 t1] d'] ts IH]; intros k n Hn Hi Hj;
    [done|].
  unfold transition in *.
  rewrite out_edges_cons, elem_of_app. destruct n as [|n]; simpl in Hn.
  - left. injection Hn as -> -> ->. rewrite decide_True by done.
    rewrite Z.add_0_r. by left.
  - right. replace (k + Z.of_nat (S n) + ns) with (k + 1 + Z.of_nat n + ns) by lia.
    by apply IH.
Qed.

(** Edges of the unsorted lattice: each one applies a transition. *)
Lemma unsorted_edge_is_transition fuel xs sm raw i0 j0 i1 j1 s0 s1 k :
  unsorted_lattice fuel xs sm = Ok raw ->
  [i0; j0; i1; j1; s0; s1; k] ∈ raw ->
  exists (n : nat) d,
    sm.2 !! n = Some (s0, s1, d) /\ k = Z.of_nat n + n_states_of sm /\
    i1 = i0 + (eval_delta d i0 j0 xs).1 /\ j1 = j0 + (eval_delta d i0 j0 xs).2 /\
    i1 < Z.of_nat (dimI xs) /\ j1 < Z.of_nat (dimJ xs).
Proof.
  intros Hrun%unsorted_lattice_while. revert i0 j0 i1 j1 s0 s1 k.
  refine (while_unvisited_invariant (fun lat (_ : list node) =>
    forall i0 j0 i1 j1 s0 s1 k, [i0; j0; i1; j1; s0; s1; k] ∈ lat ->
    exists (n : nat) d,
      sm.2 !! n = Some (s0, s1, d) /\ k = Z.of_nat n + n_states_of sm /\
      i1 = i0 + (eval_delta d i0 j0 xs).1 /\ j1 = j0 + (eval_delta d i0 j0 xs).2 /\
      i1 < Z.of_nat (dimI xs) /\ j1 < Z.of_nat (dimJ xs))
    _ _ _ _ _ _ _ _ _ _ _ Hrun).
  - clear. intros lat i j s unv Hinv i0 j0 i1 j1 s0 s1 k.
    rewrite !elem_of_app. intros [[Hlat|Hn]|He].
    + by apply Hinv.
    + apply list_elem_of_singleton in Hn. simplify_eq.
    + apply elem_of_out_edges in He as (n & t1 & d & Hn & Hi & Hj & Heq).
      simplify_eq. exists n, d. split_and!; try done; lia.
  - by intros ? ? ? ? ? ? ? ?%elem_of_nil.
Qed.

(** Edges of the unsorted lattice join nodes of the lattice. *)
Lemma unsorted_edge_endpoints fuel xs sm raw i0 j0 i1 j1 s0 s1 k :
  unsorted_lattice fuel xs sm = Ok raw ->
  [i0; j0; i1; j1; s0; s1; k] ∈ raw ->
  [i0; j0; s0] ∈ raw /\ [i1; j1; s1] ∈ raw.
Proof.
  intros Hrun%unsorted_lattice_while Hin.
  assert (forall i0 j0 i1 j1 s0 s1 k, [i0; j0; i1; j1; s0; s1; k] ∈ raw ->
    [i0; j0; s0] ∈ raw /\ ([i1; j1; s1] ∈ raw \/ (i1, j1, s1) ∈ @nil node)) as Hinv.
  { refine (while_unvisited_invariant (fun lat unv =>
      forall i0 j0 i1 j1 s0 s1 k, [i0; j0; i1; j1; s0; s1; k] ∈ lat ->
      [i0; j0; s0] ∈ lat /\ ([i1; j1; s1] ∈ lat \/ (i1, j1, s1) ∈ unv))
      _ _ _ _ _ _ _ _ _ _ _ Hrun).
    - clear. intros lat i j s unv Hinv i0 j0 i1 j1 s0 s1 k.
      rewrite !elem_of_app. intros [[Hlat|Hn]|He].
      + destruct (Hinv _ _ _ _ _ _ _ Hlat) as [Hsrc Hdst]. split; [by auto|].
        destruct Hdst as [Hdst|Hdst]; [by auto|].
        apply elem_of_cons in Hdst as [Heq|Hdst]; [|by auto].
        injection Heq as -> -> ->. left. left. right. by left.
      + apply list_elem_of_singleton in Hn. simplify_eq.
      + pose proof (out_edge_successor _ _ _ _ _ _ _ _ _ _ _ _ _ _ _ _ He) as Hsucc.
        apply elem_of_out_edges in He as (n & t1 & d & Hn & Hi & Hj & Heq).
        simplify_eq. split; [|by auto]. left. right. by left.
    - by intros ? ? ? ? ? ? ? ?%elem_of_nil. }
  destruct (Hinv _ _ _ _ _ _ _ Hin) as [Hsrc [Hdst|Hdst]]; [done|].
  by apply elem_of_nil in Hdst.
Qed.

(** The unsorted lattice holds, with each of its nodes, the edges that leave
    the node. *)
Lemma unsorted_node_edges fuel xs sm raw i j s e :
  unsorted_lattice fuel xs sm = Ok raw ->
  [i; j; s] ∈ raw ->
  e ∈ out_edges xs (Z.of_nat (dimI xs)) (Z.of_nat (dimJ xs)) (n_states_of sm)
        i j s sm.2 0 ->
  e ∈ raw.
Proof.
  intros Hrun%unsorted_lattice_while. revert i j s e.
  refine (while_unvisited_invariant (fun lat (_ : list node) =>
    forall i j s e, [i; j; s] ∈ lat ->
      e ∈ out_edges xs (Z.of_nat (dimI xs)) (Z.of_nat (dimJ xs)) (n_states_of sm)
            i j s sm.2 0 ->
      e ∈ lat) _ _ _ _ _ _ _ _ _ _ _ Hrun).
  - clear. intros lat i j s unv Hinv i' j' s' e.
    rewrite !elem_of_app. intros [[Hlat|Hn]|Hn] He.
    + left. left. by eapply Hinv.
    + apply list_elem_of_singleton in Hn. simplify_eq. by right.
    + apply elem_of_out_edges in Hn as (n & t1 & d & _ & _ & _ & Heq).
      simplify_eq.
  - by intros ? ? ? ? ?%elem_of_nil.
Qed.

(** The nodes of the unsorted lattice: start nodes and destinations of
    edges. *)
Lemma unsorted_node_origin fuel xs sm raw i j s :
  unsorted_lattice fuel xs sm = Ok raw ->
  [i; j; s] ∈ raw ->
  (i = 0 /\ j = 0 /\ s ∈ start_states sm) \/
  exists i0 j0 s0 k, [i0; j0; i; j; s0; s; k] ∈ raw.
Proof.
  intros Hrun%unsorted_lattice_while Hin.
  assert (forall i j s, [i; j; s] ∈ raw \/ (i, j, s) ∈ @nil node ->
    (i = 0 /\ j = 0 /\ s ∈ start_states sm) \/
    exists i0 j0 s0 k, [i0; j0; i; j; s0; s; k] ∈ raw) as Hinv; [|by auto].
  clear Hin.
  refine (while_unvisited_invariant (fun lat unv =>
    forall i j s, [i; j; s] ∈ lat \/ (i, j, s) ∈ unv ->
      (i = 0 /\ j = 0 /\ s ∈ start_states sm) \/
      exists i0 j0 s0 k, [i0; j0; i; j; s0; s; k] ∈ lat)
    _ _ _ _ _ _ _ _ _ _ _ Hrun).
  - clear. intros lat i j s unv Hinv i' j' s'.
    assert (forall i' j' s',
      [i'; j'; s'] ∈ lat \/ (i', j', s') ∈ (i, j, s) :: unv ->
      (i' = 0 /\ j' = 0 /\ s' ∈ start_states sm) \/
      exists i0 j0 s0 k,
        [i0; j0; i'; j'; s0; s'; k] ∈
          (lat ++ [[i; j; s]]) ++
          out_edges xs (Z.of_nat (dimI xs)) (Z.of_nat (dimJ xs)) (n_states_of sm)
            i j s sm.2 0) as Hold.
    { intros a b c Hc. destruct (Hinv a b c Hc) as [?|(i0 & j0 & s0 & k & Hk)];
        [by left|right]. exists i0, j0, s0, k. rewrite !elem_of_app. by auto. }
    rewrite !elem_of_app. intros [[[Hlat|Hn]|Hn]|[Hunv|Hsucc]].
    + apply Hold. by left.
    + apply list_elem_of_singleton in Hn. simplify_eq. apply Hold. right. by left.
    + apply elem_of_out_edges in Hn as (n & t1 & d & _ & _ & _ & Heq). simplify_eq.
    + apply Hold. right. by right.
    + right. apply successor_out_edge in Hsucc as [c Hc].
      exists i, j, s, c. rewrite !elem_of_app. by right.
  - intros a b c [Hnil|(s' & Heq & Hs')%list_elem_of_fmap]; [by apply elem_of_nil in Hnil|].
    simplify_eq. by left.
Qed.

End LatticeStructure.

Lemma Sorted_app_cons_le (l1 l2 : list tuple) (a b : tuple) :
  Sorted tuple_le (l1 ++ a :: l2) -> b ∈ l2 -> tuple_le a b.
Proof.
  intros Hs%(Sorted_StronglySorted tuple_le) Hb.
  apply StronglySorted_app_1_r in Hs.
  apply StronglySorted_cons in Hs as [Hall _].
  rewrite Forall_forall in Hall. by apply Hall.
Qed.

Lemma Sorted_app_cons_ge (l1 l2 : list tuple) (a b : tuple) :
  Sorted tuple_le (l1 ++ a :: l2) -> b ∈ l1 -> tuple_le b a.
Proof.
  intros Hs%(Sorted_StronglySorted tuple_le) Hb.
  apply (StronglySorted_app_1_elem_of tuple_le l1 (a :: l2)); [done..|by left].
Qed.

Section LatticeGraph.
Context {F : Type} `{FloatOps F}.
Implicit Types (xs : ndarray3 (F:=F)) (sm : StateMachine (F:=F)).

(** Every edge [(i0, j0, i1, j1, s0, s1, k)] of a lattice that
    [_build_lattice] returns applies a transition: [k - n_states] is the
    position in the list of transitions of a transition from [s0] to [s1],
    [(i1, j1)] is [(i0, j0)] moved by its delta evaluated at [(i0, j0)], and
    [i1 < I], [j1 < J]. *)
Theorem lattice_edge_is_transition fuel xs sm l i0 j0 i1 j1 s0 s1 k :
  _build_lattice fuel xs sm = Ok l ->
  [i0; j0; i1; j1; s0; s1; k] ∈ l ->
  exists (n : nat) d,
    sm.2 !! n = Some (s0, s1, d) /\ k = Z.of_nat n + n_states_of sm /\
    i1 = i0 + (eval_delta d i0 j0 xs).1 /\ j1 = j0 + (eval_delta d i0 j0 xs).2 /\
    i1 < Z.of_nat (dimI xs) /\ j1 < Z.of_nat (dimJ xs).
Proof.
  intros (raw & Hraw & ->)%build_lattice_Ok Hin.
  rewrite sorted_Permutation in Hin.
  by eapply unsorted_edge_is_transition.
Qed.

(** Both endpoints of every edge of a returned lattice are nodes of the
    lattice. *)
Theorem lattice_edge_endpoints fuel xs sm l i0 j0 i1 j1 s0 s1 k :
  _build_lattice fuel xs sm = Ok l ->
  [i0; j0; i1; j1; s0; s1; k] ∈ l ->
  [i0; j0; s0] ∈ l /\ [i1; j1; s1] ∈ l.
Proof.
  intros (raw & Hraw & ->)%build_lattice_Ok Hin.
  rewrite !sorted_Permutation in *.
  by eapply unsorted_edge_endpoints.
Qed.

(** A returned lattice is closed under the transitions: for a node
    [(i, j, s)] of the lattice and a transition from [s], at position [n] of
    the list, whose delta leads to a position with [i' < I] and [j' < J], the
    edge with column [n + n_states] and the destination node are in the
    lattice. *)
Theorem lattice_closed_under_transitions fuel xs sm l i j s (n : nat) s1 d :
  _build_lattice fuel xs sm = Ok l ->
  [i; j; s] ∈ l ->
  sm.2 !! n = Some (s, s1, d) ->
  i + (eval_delta d i j xs).1 < Z.of_nat (dimI xs) ->
  j + (eval_delta d i j xs).2 < Z.of_nat (dimJ xs) ->
  [i; j; i + (eval_delta d i j xs).1; j + (eval_delta d i j xs).2; s; s1;
   Z.of_nat n + n_states_of sm] ∈ l /\
  [i + (eval_delta d i j xs).1; j + (eval_delta d i j xs).2; s1] ∈ l.
Proof.
  intros (raw & Hraw & ->)%build_lattice_Ok Hin Hn Hi Hj.
  rewrite !sorted_Permutation in *.
  assert ([i; j; i + (eval_delta d i j xs).1; j + (eval_delta d i j xs).2; s; s1;
           Z.of_nat n + n_states_of sm] ∈ raw) as He.
  { eapply unsorted_node_edges; [done..|].
    by apply (out_edges_complete _ _ _ _ _ _ _ _ 0 n s1 d). }
  split; [done|]. by eapply unsorted_edge_endpoints.
Qed.

(** The nodes of a returned lattice: the start node [(0, 0, s)] of every
    start state is a node, whatever the shape of the tensor, and every node
    is such a start node or the destination of an edge of the lattice. *)
Theorem lattice_node_origin fuel xs sm l :
  _build_lattice fuel xs sm = Ok l ->
  (forall s, s ∈ start_states sm -> [0; 0; s] ∈ l) /\
  (forall i j s, [i; j; s] ∈ l ->
     (i = 0 /\ j = 0 /\ s ∈ start_states sm) \/
     exists i0 j0 s0 k, [i0; j0; i; j; s0; s; k] ∈ l).
Proof.
  intros (raw & Hraw & ->)%build_lattice_Ok. split.
  - intros s Hs. rewrite sorted_Permutation.
    destruct (unsorted_lattice_emits (fun _ => True) (fun _ => True)
                fuel xs sm raw) as (Y & -> & _); [done..|].
    apply elem_of_app. left. apply list_elem_of_fmap. eauto.
  - intros i j s Hin. rewrite sorted_Permutation in Hin.
    destruct (unsorted_node_origin _ _ _ _ _ _ _ Hraw Hin)
      as [?|(i0 & j0 & s0 & k & Hk)]; [by left|right].
    exists i0, j0, s0, k. by rewrite sorted_Permutation.
Qed.

(** The order of a returned lattice serves the forward pass: with fixed
    non-negative deltas, not both zero, every edge that enters a node stands
    before every occurrence of the node. *)
Theorem incoming_edges_precede_node fuel xs sm l l1 l2 i0 j0 i1 j1 s0 s1 k :
  Forall fixed_delta_ok sm.2 ->
  _build_lattice fuel xs sm = Ok l ->
  l = l1 ++ [i1; j1; s1] :: l2 ->
  [i0; j0; i1; j1; s0; s1; k] ∈ l ->
  [i0; j0; i1; j1; s0; s1; k] ∈ l1 /\ [i0; j0; i1; j1; s0; s1; k] ∉ l2.
Proof.
  intros Hok Hrun -> Hin.
  assert (exists (n : nat) d, sm.2 !! n = Some (s0, s1, d) /\
    i1 = i0 + (eval_delta d i0 j0 xs).1 /\ j1 = j0 + (eval_delta d i0 j0 xs).2)
    as (n & d & Hn & Hi & Hj).
  { pose proof Hrun as (raw & Hraw & Heq)%build_lattice_Ok.
    rewrite Heq, sorted_Permutation in Hin.
    destruct (unsorted_edge_is_transition _ _ _ _ _ _ _ _ _ _ _ Hraw Hin)
      as (n & d & ? & _ & ? & ? & _). eauto. }
  apply list_elem_of_lookup_2 in Hn.
  rewrite Forall_forall in Hok. specialize (Hok _ Hn).
  unfold fixed_delta_ok in Hok. simpl in Hok.
  destruct d as [di dj|f]; [|done]. simpl in *.
  assert ([i0; j0; i1; j1; s0; s1; k] ∉ l2) as Hl2.
  { intros Hl2. apply build_lattice_Ok in Hrun as (raw & _ & Heq).
    pose proof (sorted_Sorted raw) as Hs. rewrite <- Heq in Hs.
    pose proof (Sorted_app_cons_le _ _ _ _ Hs Hl2) as Hle.
    unfold tuple_le in Hle. simpl in Hle.
    destruct (Z.ltb_spec i1 i0); [lia|].
    destruct (Z.ltb_spec i0 i1); [done|].
    destruct (Z.ltb_spec j1 j0); [lia|].
    destruct (Z.ltb_spec j0 j1); [done|lia]. }
  split; [|done].
  apply elem_of_app in Hin as [?|Hin]; [done|].
  apply elem_of_cons in Hin as [?|?]; [simplify_eq|done].
Qed.

(** Where an edge that leaves a node stands relative to the node depends on
    the comparison of the state of the node with the row of the destination,
    the third components of the two tuples: the edge stands after the node
    if [s <= i1] and before it if [i1 < s]. *)
Theorem outgoing_edge_order fuel xs sm l l1 l2 i j s i1 j1 s1 k :
  _build_lattice fuel xs sm = Ok l ->
  l = l1 ++ [i; j; s] :: l2 ->
  (s <= i1 -> [i; j; i1; j1; s; s1; k] ∉ l1) /\
  (i1 < s -> [i; j; i1; j1; s; s1; k] ∉ l2).
Proof.
  intros (raw & _ & Heq)%build_lattice_Ok ->.
  pose proof (sorted_Sorted raw) as Hs. rewrite <- Heq in Hs.
  split; intros Hlt Hin.
  - pose proof (Sorted_app_cons_ge _ _ _ _ Hs Hin) as Hle.
    unfold tuple_le in Hle. simpl in Hle. rewrite !Z.ltb_irrefl in Hle.
    destruct (Z.ltb_spec i1 s); [lia|]. by destruct (Z.ltb_spec s i1).
  - pose proof (Sorted_app_cons_le _ _ _ _ Hs Hin) as Hle.
    unfold tuple_le in Hle. simpl in Hle. rewrite !Z.ltb_irrefl in Hle.
    destruct (Z.ltb_spec s i1); [lia|]. destruct (Z.ltb_spec i1 s); [done|lia].
Qed.

End LatticeGraph.

Lemma lattice_edge_is_transition_witness :
  _build_lattice 10 (zero_tensor 1 2 1) (_default_state_machine [0]).1
    = Ok [[0; 0; 0]; [0; 0; 0; 1; 0; 0; 2]; [0; 1; 0]] /\
  [0; 0; 0; 1; 0; 0; 2] ∈ [[0; 0; 0]; [0; 0; 0; 1; 0; 0; 2]; [0; 1; 0]] /\
  exists (n : nat) d,
    (_default_state_machine (F:=fterm) [0]).1.2 !! n = Some (0, 0, d) /\
    2 = Z.of_nat n + n_states_of (_default_state_machine (F:=fterm) [0]).1 /\
    0 = 0 + (eval_delta d 0 0 (zero_tensor 1 2 1)).1 /\
    1 = 0 + (eval_delta d 0 0 (zero_tensor 1 2 1)).2 /\
    0 < Z.of_nat (dimI (zero_tensor 1 2 1)) /\
    1 < Z.of_nat (dimJ (zero_tensor 1 2 1)).
Proof.
  assert (_build_lattice 10 (zero_tensor 1 2 1) (_default_state_machine [0]).1
    = Ok [[0; 0; 0]; [0; 0; 0; 1; 0; 0; 2]; [0; 1; 0]]) as Hrun
    by (vm_compute; reflexivity).
  assert ([0; 0; 0; 1; 0; 0; 2] ∈ [[0; 0; 0]; [0; 0; 0; 1; 0; 0; 2]; [0; 1; 0]])
    as Hin by (apply (bool_decide_eq_true_1 (_ ∈ _)); vm_compute; reflexivity).
  split; [exact Hrun|]. split; [exact Hin|].
  exact (lattice_edge_is_transition _ _ _ _ _ _ _ _ _ _ _ Hrun Hin).
Defined.

Lemma lattice_edge_endpoints_witness :
  _build_lattice 10 (zero_tensor 1 2 1) (_default_state_machine [0]).1
    = Ok [[0; 0; 0]; [0; 0; 0; 1; 0; 0; 2]; [0; 1; 0]] /\
  [0; 0; 0; 1; 0; 0; 2] ∈ [[0; 0; 0]; [0; 0; 0; 1; 0; 0; 2]; [0; 1; 0]] /\
  [0; 0; 0] ∈ [[0; 0; 0]; [0; 0; 0; 1; 0; 0; 2]; [0; 1; 0]] /\
  [0; 1; 0] ∈ [[0; 0; 0]; [0; 0; 0; 1; 0; 0; 2]; [0; 1; 0]].
Proof.
  assert (_build_lattice 10 (zero_tensor 1 2 1) (_default_state_machine [0]).1
    = Ok [[0; 0; 0]; [0; 0; 0; 1; 0; 0; 2]; [0; 1; 0]]) as Hrun
    by (vm_compute; reflexivity).
  assert ([0; 0; 0; 1; 0; 0; 2] ∈ [[0; 0; 0]; [0; 0; 0; 1; 0; 0; 2]; [0; 1; 0]])
    as Hin by (apply (bool_decide_eq_true_1 (_ ∈ _)); vm_compute; reflexivity).
  split; [exact Hrun|]. split; [exact Hin|].
  exact (lattice_edge_endpoints _ _ _ _ _ _ _ _ _ _ _ Hrun Hin).
Defined.

Lemma lattice_closed_under_transitions_witness :
  _build_lattice 10 (zero_tensor 1 2 1) (_default_state_machine [0]).1
    = Ok [[0; 0; 0]; [0; 0; 0; 1; 0; 0; 2]; [0; 1; 0]] /\
  [0; 0; 0] ∈ [[0; 0; 0]; [0; 0; 0; 1; 0; 0; 2]; [0; 1; 0]] /\
  (_default_state_machine (F:=fterm) [0]).1.2 !! 1%nat = Some (0, 0, Fixed 0 1) /\
  0 + (eval_delta (Fixed 0 1) 0 0 (zero_tensor 1 2 1)).1
    < Z.of_nat (dimI (zero_tensor 1 2 1)) /\
  0 + (eval_delta (Fixed 0 1) 0 0 (zero_tensor 1 2 1)).2
    < Z.of_nat (dimJ (zero_tensor 1 2 1)) /\
  [0; 0; 0 + (eval_delta (Fixed 0 1) 0 0 (zero_tensor 1 2 1)).1;
   0 + (eval_delta (Fixed 0 1) 0 0 (zero_tensor 1 2 1)).2; 0; 0;
   Z.of_nat 1 + n_states_of (_default_state_machine (F:=fterm) [0]).1]
    ∈ [[0; 0; 0]; [0; 0; 0; 1; 0; 0; 2]; [0; 1; 0]] /\
  [0 + (eval_delta (Fixed 0 1) 0 0 (zero_tensor 1 2 1)).1;
   0 + (eval_delta (Fixed 0 1) 0 0 (zero_tensor 1 2 1)).2; 0]
    ∈ [[0; 0; 0]; [0; 0; 0; 1; 0; 0; 2]; [0; 1; 0]].
Proof.
  assert (_build_lattice 10 (zero_tensor 1 2 1) (_default_state_machine [0]).1
    = Ok [[0; 0; 0]; [0; 0; 0; 1; 0; 0; 2]; [0; 1; 0]]) as Hrun
    by (vm_compute; reflexivity).
  assert ([0; 0; 0] ∈ [[0; 0; 0]; [0; 0; 0; 1; 0; 0; 2]; [0; 1; 0]])
    as Hin by (apply (bool_decide_eq_true_1 (_ ∈ _)); vm_compute; reflexivity).
  assert ((_default_state_machine (F:=fterm) [0]).1.2 !! 1%nat
          = Some (0, 0, Fixed 0 1)) as Hn by reflexivity.
  assert (0 + (eval_delta (Fixed 0 1) 0 0 (zero_tensor 1 2 1)).1
          < Z.of_nat (dimI (zero_tensor 1 2 1))) as Hi by (simpl; lia).
  assert (0 + (eval_delta (Fixed 0 1) 0 0 (zero_tensor 1 2 1)).2
          < Z.of_nat (dimJ (zero_tensor 1 2 1))) as Hj by (simpl; lia).
  split; [exact Hrun|]. split; [exact Hin|]. split; [exact Hn|].
  split; [exact Hi|]. split; [exact Hj|].
  exact (lattice_closed_under_transitions _ _ _ _ _ _ _ _ _ _ Hrun Hin Hn Hi Hj).
Defined.

Lemma lattice_node_origin_witness :
  _build_lattice 10 (zero_tensor 1 2 1) (_default_state_machine [0]).1
    = Ok [[0; 0; 0]; [0; 0; 0; 1; 0; 0; 2]; [0; 1; 0]] /\
  (forall s, s ∈ start_states (_default_state_machine (F:=fterm) [0]).1 ->
     [0; 0; s] ∈ [[0; 0; 0]; [0; 0; 0; 1; 0; 0; 2]; [0; 1; 0]]) /\
  (forall i j s, [i; j; s] ∈ [[0; 0; 0]; [0; 0; 0; 1; 0; 0; 2]; [0; 1; 0]] ->
     (i = 0 /\ j = 0 /\ s ∈ start_states (_default_state_machine (F:=fterm) [0]).1) \/
     exists i0 j0 s0 k,
       [i0; j0; i; j; s0; s; k] ∈ [[0; 0; 0]; [0; 0; 0; 1; 0; 0; 2]; [0; 1; 0]]).
Proof.
  assert (_build_lattice 10 (zero_tensor 1 2 1) (_default_state_machine [0]).1
    = Ok [[0; 0; 0]; [0; 0; 0; 1; 0; 0; 2]; [0; 1; 0]]) as Hrun
    by (vm_compute; reflexivity).
  split; [exact Hrun|].
  exact (lattice_node_origin _ _ _ _ Hrun).
Defined.

Lemma incoming_edges_precede_node_witness :
  Forall fixed_delta_ok (_default_state_machine (F:=fterm) [0]).1.2 /\
  _build_lattice 10 (zero_tensor 1 2 1) (_default_state_machine [0]).1
    = Ok [[0; 0; 0]; [0; 0; 0; 1; 0; 0; 2]; [0; 1; 0]] /\
  [[0; 0; 0]; [0; 0; 0; 1; 0; 0; 2]; [0; 1; 0]]
    = [[0; 0; 0]; [0; 0; 0; 1; 0; 0; 2]] ++ [0; 1; 0] :: [] /\
  [0; 0; 0; 1; 0; 0; 2] ∈ [[0; 0; 0]; [0; 0; 0; 1; 0; 0; 2]; [0; 1; 0]] /\
  [0; 0; 0; 1; 0; 0; 2] ∈ [[0; 0; 0]; [0; 0; 0; 1; 0; 0; 2]] /\
  [0; 0; 0; 1; 0; 0; 2] ∉ @nil tuple.
Proof.
  assert (Forall fixed_delta_ok (_default_state_machine (F:=fterm) [0]).1.2) as Hok
    by (vm_compute; repeat constructor; intros; discriminate).
  assert (_build_lattice 10 (zero_tensor 1 2 1) (_default_state_machine [0]).1
    = Ok [[0; 0; 0]; [0; 0; 0; 1; 0; 0; 2]; [0; 1; 0]]) as Hrun
    by (vm_compute; reflexivity).
  assert ([[0; 0; 0]; [0; 0; 0; 1; 0; 0; 2]; [0; 1; 0]]
    = [[0; 0; 0]; [0; 0; 0; 1; 0; 0; 2]] ++ [0; 1; 0] :: []) as Hsplit
    by reflexivity.
  assert ([0; 0; 0; 1; 0; 0; 2] ∈ [[0; 0; 0]; [0; 0; 0; 1; 0; 0; 2]; [0; 1; 0]])
    as Hin by (apply (bool_decide_eq_true_1 (_ ∈ _)); vm_compute; reflexivity).
  split; [exact Hok|]. split; [exact Hrun|]. split; [exact Hsplit|].
  split; [exact Hin|].
  exact (incoming_edges_precede_node _ _ _ _ _ _ _ _ _ _ _ _ _ Hok Hrun Hsplit Hin).
Defined.

Lemma outgoing_edge_order_witness :
  _build_lattice 10 (zero_tensor 1 2 1) (_default_state_machine [0; 1]).1
    = Ok ([[0; 0; 0]; [0; 0; 0; 1; 0; 0; 4]; [0; 0; 0; 1; 1; 1; 5]] ++
          [0; 0; 1] :: [[0; 1; 0]; [0; 1; 1]]) /\
  [[0; 0; 0]; [0; 0; 0; 1; 0; 0; 4]; [0; 0; 0; 1; 1; 1; 5]] ++
    [0; 0; 1] :: [[0; 1; 0]; [0; 1; 1]]
  = [[0; 0; 0]; [0; 0; 0; 1; 0; 0; 4]; [0; 0; 0; 1; 1; 1; 5]] ++
    [0; 0; 1] :: [[0; 1; 0]; [0; 1; 1]] /\
  (1 <= 0 ->
   [0; 0; 0; 1; 1; 1; 5] ∉ [[0; 0; 0]; [0; 0; 0; 1; 0; 0; 4]; [0; 0; 0; 1; 1; 1; 5]]) /\
  (0 < 1 -> [0; 0; 0; 1; 1; 1; 5] ∉ [[0; 1; 0]; [0; 1; 1]]).
Proof.
  assert (_build_lattice 10 (zero_tensor 1 2 1) (_default_state_machine [0; 1]).1
    = Ok ([[0; 0; 0]; [0; 0; 0; 1; 0; 0; 4]; [0; 0; 0; 1; 1; 1; 5]] ++
          [0; 0; 1] :: [[0; 1; 0]; [0; 1; 1]])) as Hrun
    by (vm_compute; reflexivity).
  split; [exact Hrun|]. split; [reflexivity|].
  exact (outgoing_edge_order _ _ _ _ _ _ _ _ _ _ _ _ _ Hrun eq_refl).
Defined.

(** * Further properties of the forward pass and of training *)

Lemma tuple_le_origin (a b c : Z) (rest : tuple) :
  0 <= a -> 0 <= b -> 0 <= c -> tuple_le [0; 0; 0] (a :: b :: c :: rest).
Proof.
  intros Ha Hb Hc. unfold tuple_le. simpl.
  destruct (Z.ltb_spec 0 a); [done|]. destruct (Z.ltb_spec a 0); [lia|].
  destruct (Z.ltb_spec 0 b); [done|]. destruct (Z.ltb_spec b 0); [lia|].
  destruct (Z.ltb_spec 0 c); [done|]. destruct (Z.ltb_spec c 0); [lia|done].
Qed.

Section BuiltModels.
Context {F : Type} `{FloatOps F} {C : Type} `{EqDecision C}.
Implicit Types (xs : ndarray3 (F:=F)) (params : ndarray2 (F:=F))
  (alpha : gmap tuple F) (sm : StateMachine (F:=F)) (cs : list C).

Lemma forward_loop_raises xs params alpha (l : list tuple) (t : tuple) :
  t ∈ l -> length t <> 7%nat ->
  exists e, forward_loop xs params alpha l = Raise e.
Proof.
  intros Hin Hlen. revert alpha.
  induction l as [|a l IH]; intros alpha; [by apply elem_of_nil in Hin|].
  simpl. pose proof (forward_step_not_OutOfFuel xs params alpha a) as Hf.
  destruct (forward_step xs params alpha a) as [alpha'|e|] eqn:Hstep; simpl;
    [|by eauto|done].
  apply elem_of_cons in Hin as [->|Hin]; [|by apply IH].
  by rewrite forward_step_raises in Hstep.
Qed.

Lemma forward_loop_head_raises xs params alpha (t : tuple) (l : list tuple) :
  length t <> 7%nat -> forward_loop xs params alpha (t :: l) = Raise ValueError.
Proof. intros Hlen. cbn [forward_loop]. by rewrite forward_step_raises. Qed.

(** The lattice of a state machine of match, insertion and deletion
    self-transitions whose start states are non-negative and include state 0
    begins with the start node [(0, 0, 0)]. *)
Lemma edit_lattice_head sm fuel xs l :
  edit_machine sm -> 0 ∈ start_states sm ->
  (forall s, s ∈ start_states sm -> 0 <= s) ->
  _build_lattice fuel xs sm = Ok l ->
  exists tl, l = [0; 0; 0] :: tl.
Proof.
  intros Hedit H0 Hpos (raw & Hraw & ->)%build_lattice_Ok.
  pose proof (edit_machine_fixed_delta_ok _ Hedit) as Hok.
  destruct Hedit as (starts & _ & _ & Hts).
  apply (unsorted_lattice_emits
    (fun n => 0 <= n.1.1 /\ 0 <= n.1.2 /\ 0 <= n.2)
    (fun t => tuple_le [0; 0; 0] t)) in Hraw as (Y & Hperm & HY).
  - assert (Forall (tuple_le [0; 0; 0]) (sorted raw)) as Hall.
    { rewrite sorted_Permutation, Hperm. apply Forall_app. split; [|done].
      apply Forall_forall. intros t (s & -> & Hs%Hpos)%list_elem_of_fmap.
      apply tuple_le_origin; lia. }
    assert ([0; 0; 0] ∈ sorted raw) as Hin.
    { rewrite sorted_Permutation, Hperm, elem_of_app. left.
      apply list_elem_of_fmap. by exists 0. }
    pose proof (sorted_Sorted raw) as Hs.
    destruct (sorted raw) as [|h tl]; [by apply elem_of_nil in Hin|].
    exists tl. f_equal. apply (anti_symm tuple_le).
    + apply elem_of_cons in Hin as [->|Hin]; [done|].
      apply (Sorted_StronglySorted tuple_le), StronglySorted_cons in Hs as [Hh _].
      rewrite Forall_forall in Hh. by apply Hh.
    + by apply Forall_cons in Hall as [? _].
  - intros ns i j s c (Hi & Hj & Hs) Hc.
    pose proof (successor_in_bounds xs _ ns i j s c Hok Hi Hj Hc) as (? & ? & ?).
    apply elem_of_successors in Hc as (s1 & d & Hin & _ & _ & ->).
    destruct (Hts _ Hin) as (Hself & _ & _). unfold src, dst in Hself.
    cbn [fst snd] in *. subst s1.
    split; [lia|]. apply tuple_le_origin; lia.
  - intros ns i j s e (Hi & Hj & Hs) (n & s1 & d & Hn & _ & _ & ->)%elem_of_out_edges.
    cbn [fst snd] in *. apply list_elem_of_lookup_2 in Hn.
    rewrite Forall_forall in Hok. specialize (Hok _ Hn).
    unfold fixed_delta_ok in Hok. cbn [fst snd] in Hok.
    destruct d as [di dj|f]; [|done]. cbn [eval_delta fst snd].
    apply tuple_le_origin; lia.
  - intros s Hs%Hpos. cbn [fst snd]. lia.
Qed.

Lemma default_lattice_head cs fuel xs l :
  cs <> [] ->
  _build_lattice fuel xs (_default_state_machine cs).1 = Ok l ->
  exists tl, l = [0; 0; 0] :: tl.
Proof.
  intros Hne. apply edit_lattice_head; [apply default_edit_machine| |].
  - change (0 ∈ seqZ 0 (Z.of_nat (length cs))). apply elem_of_seqZ.
    destruct cs; [done|]. simpl. lia.
  - intros s. change (s ∈ seqZ 0 (Z.of_nat (length cs)) -> 0 <= s).
    intros Hs%elem_of_seqZ. lia.
Qed.

(** What [make_models] returns when no constructor fails. *)
Lemma make_models_Ok fuel sm cs (X : list (ndarray3 (F:=F))) (ys : list C)
    built ms :
  make_models fuel sm cs X ys = (built, Ok ms) ->
  built = ms /\ length ms = (length X `min` length ys)%nat /\
  forall (k : nat) m, ms !! k = Some m ->
    exists x0 y0, X !! k = Some x0 /\ ys !! k = Some y0 /\
      __init__ fuel sm cs x0 y0 = Ok m.
Proof.
  revert ys built ms. induction X as [|x0 X IH]; intros [|y0 ys] built ms Hmk;
    simpl in Hmk; try (injection Hmk as <- <-; by split_and!).
  destruct (__init__ fuel sm cs x0 y0) as [m| |] eqn:Hinit; try discriminate.
  destruct (make_models fuel sm cs X ys) as [built' r] eqn:Hrec.
  destruct r as [ms'| |]; simpl in Hmk; try discriminate.
  injection Hmk as <- <-.
  destruct (IH _ _ _ Hrec) as (-> & Hlen & Hk).
  split; [done|]. split; [simpl; lia|].
  intros [|k] m'; simpl.
  - intros [= <-]. eauto.
  - apply Hk.
Qed.

(** [forward_backward] never returns on a model whose lattice was built from
    a state machine with a start state: it raises for every parameter
    matrix, since the lattice holds the node of the start state. *)
Theorem forward_backward_raises_on_built_model fuel sm cs xs (y0 : C)
    (m : Model) params :
  __init__ fuel sm cs xs y0 = Ok m ->
  start_states sm <> [] ->
  exists e, (forward_backward m params).1 = Raise e.
Proof.
  unfold __init__. intros Hinit Hstart.
  destruct (_build_lattice fuel xs sm) as [l| |] eqn:Hl; simpl in Hinit;
    try discriminate.
  injection Hinit as <-. unfold forward_backward. simpl.
  destruct (start_states sm) as [|s ss] eqn:Hss; [done|].
  apply build_lattice_Ok in Hl as (raw & Hraw & ->).
  destruct (unsorted_lattice_emits (fun _ => True) (fun _ => True)
              fuel xs sm raw) as (Y & Hperm & _); [done..|].
  destruct (forward_loop_raises xs params ∅ (sorted raw) [0; 0; s]) as [e He].
  - rewrite sorted_Permutation, Hperm, Hss. apply elem_of_app. left. by left.
  - simpl. lia.
  - exists e. by rewrite He.
Qed.

(** Under the default state machine of a non-empty class list, whatever the
    tensor, the label and the parameter matrix, [forward_backward] raises
    [ValueError] on the first tuple of the lattice, the start node
    [(0, 0, 0)]. *)
Theorem forward_backward_raises_ValueError fuel cs xs (y0 : C)
    (m : Model) params :
  cs <> [] ->
  __init__ fuel (_default_state_machine cs).1 cs xs y0 = Ok m ->
  (forward_backward m params).1 = Raise ValueError.
Proof.
  unfold __init__. intros Hne Hinit.
  destruct (_build_lattice fuel xs (_default_state_machine cs).1) as [l| |] eqn:Hl;
    simpl in Hinit; try discriminate.
  injection Hinit as <-. unfold forward_backward. cbn [fst x _lattice].
  destruct (default_lattice_head cs fuel xs l Hne Hl) as [tl ->].
  by rewrite forward_loop_head_raises by (simpl; lia).
Qed.

(** [make_models] constructs one model per pair of [zip(X, y)], in order: the
    [k]-th model holds the state machine, the class list, the [k]-th tensor,
    the [k]-th label and the lattice of that tensor, and nothing else. *)
Theorem make_models_spec fuel sm cs (X : list (ndarray3 (F:=F))) (ys : list C)
    built ms :
  make_models fuel sm cs X ys = (built, Ok ms) ->
  built = ms /\ length ms = (length X `min` length ys)%nat /\
  forall (k : nat) m, ms !! k = Some m ->
    X !! k = Some (x m) /\ ys !! k = Some (y m) /\
    state_machine m = sm /\ classes m = cs /\
    _build_lattice fuel (x m) sm = Ok (_lattice m) /\ __dict__ m = ∅.
Proof.
  intros (-> & Hlen & Hk)%make_models_Ok. split; [done|]. split; [done|].
  intros k m (x0 & y0 & HX & Hy & Hinit)%Hk.
  unfold __init__ in Hinit.
  destruct (_build_lattice fuel x0 sm) as [l| |] eqn:Hl; simpl in Hinit;
    try discriminate.
  injection Hinit as <-. simpl. by rewrite Hl.
Qed.

(** Every evaluation of the objective on the models of a training set
    raises [ValueError]: with at least one model, built under the default
    state machine of a non-empty class list, [_objective] stops in the
    [forward_backward] of the first model, for every parameter matrix. *)
Theorem objective_raises_ValueError fuel cs (X : list (ndarray3 (F:=F)))
    (ys : list C) built m ms derivative params :
  cs <> [] ->
  make_models fuel (_default_state_machine cs).1 cs X ys = (built, Ok (m :: ms)) ->
  _objective (m :: ms) derivative params = Raise ValueError.
Proof.
  intros Hne (_ & _ & Hk)%make_models_Ok.
  destruct (Hk 0%nat m eq_refl) as (x0 & y0 & _ & _ & Hinit).
  assert ((forward_backward m params).1 = Raise ValueError) as Hfb.
  { unfold __init__ in Hinit.
    destruct (_build_lattice fuel x0 (_default_state_machine cs).1) as [l| |] eqn:Hl;
      simpl in Hinit; try discriminate.
    injection Hinit as <-. unfold forward_backward. cbn [fst x _lattice].
    destruct (default_lattice_head cs fuel x0 l Hne Hl) as [tl ->].
    by rewrite forward_loop_head_raises by (simpl; lia). }
  unfold _objective. cbn [objective_loop].
  destruct (forward_backward m params) as [r m']. cbn [fst] in Hfb. by subst r.
Qed.

End BuiltModels.

Lemma forward_backward_raises_on_built_model_witness :
  __init__ 10 (_default_state_machine [0]).1 [0] (zero_tensor 1 1 1) 0 = Ok unit_model /\
  start_states (_default_state_machine (F:=fterm) [0]).1 <> [] /\
  exists e, (forward_backward unit_model (zeros 1 4)).1 = Raise e.
Proof.
  assert (__init__ 10 (_default_state_machine [0]).1 [0] (zero_tensor 1 1 1) 0
          = Ok unit_model) as Hinit by (vm_compute; reflexivity).
  assert (start_states (_default_state_machine (F:=fterm) [0]).1 <> []) as Hstart
    by (vm_compute; discriminate).
  split; [exact Hinit|]. split; [exact Hstart|].
  exact (forward_backward_raises_on_built_model _ _ _ _ _ _ (zeros 1 4) Hinit Hstart).
Defined.

Lemma forward_backward_raises_ValueError_witness :
  [0] <> [] /\
  __init__ 10 (_default_state_machine [0]).1 [0] (zero_tensor 1 1 1) 0 = Ok unit_model /\
  (forward_backward unit_model (zeros 1 4)).1 = Raise ValueError.
Proof.
  assert ([0] <> []) as Hne by discriminate.
  assert (__init__ 10 (_default_state_machine [0]).1 [0] (zero_tensor 1 1 1) 0
          = Ok unit_model) as Hinit by (vm_compute; reflexivity).
  split; [exact Hne|]. split; [exact Hinit|].
  exact (forward_backward_raises_ValueError _ _ _ _ _ (zeros 1 4) Hne Hinit).
Defined.

Lemma make_models_spec_witness :
  make_models 10 (_default_state_machine [0]).1 [0] [zero_tensor 1 1 1] [0]
    = ([unit_model], Ok [unit_model]) /\
  [unit_model] = [unit_model] /\
  length [unit_model] = (length [zero_tensor 1 1 1] `min` length [0])%nat /\
  forall (k : nat) m, [unit_model] !! k = Some m ->
    [zero_tensor 1 1 1] !! k = Some (x m) /\ [0] !! k = Some (y m) /\
    state_machine m = (_default_state_machine [0]).1 /\ classes m = [0] /\
    _build_lattice 10 (x m) (_default_state_machine [0]).1 = Ok (_lattice m) /\
    __dict__ m = ∅.
Proof.
  assert (make_models 10 (_default_state_machine [0]).1 [0] [zero_tensor 1 1 1] [0]
          = ([unit_model], Ok [unit_model])) as Hmk by (vm_compute; reflexivity).
  split; [exact Hmk|].
  exact (make_models_spec _ _ _ _ _ _ _ Hmk).
Defined.

Lemma objective_raises_ValueError_witness :
  [0] <> [] /\
  make_models 10 (_default_state_machine [0]).1 [0] [zero_tensor 1 1 1] [0]
    = ([unit_model], Ok [unit_model]) /\
  _objective [unit_model] (zeros 1 4) (zeros 1 4) = Raise ValueError.
Proof.
  assert ([0] <> []) as Hne by discriminate.
  assert (make_models 10 (_default_state_machine [0]).1 [0] [zero_tensor 1 1 1] [0]
          = ([unit_model], Ok [unit_model])) as Hmk by (vm_compute; reflexivity).
  split; [exact Hne|]. split; [exact Hmk|].
  exact (objective_raises_ValueError _ _ _ _ _ _ _ (zeros 1 4) (zeros 1 4) Hne Hmk).
Defined.

Section DefaultColumns.
Context {F : Type} `{FloatOps F} {C : Type}.
Implicit Types (xs : ndarray3 (F:=F)) (cs : list C).

Lemma default_transitions_lookup cs (idx : nat) s0 s1 (d : delta (F:=F)) :
  (_default_state_machine cs).1.2 !! idx = Some (s0, s1, d) ->
  s1 = s0 /\ 0 <= s0 < Z.of_nat (length cs) /\
  ((d = Fixed 1 1 /\ Z.of_nat idx = s0) \/
   (d = Fixed 0 1 /\ Z.of_nat idx = Z.of_nat (length cs) + s0) \/
   (d = Fixed 1 0 /\ Z.of_nat idx = 2 * Z.of_nat (length cs) + s0)).
Proof.
  cbn [_default_state_machine fst snd].
  change (map ?f ?l) with (f <$> l).
  rewrite !lookup_app_Some, !length_fmap, !length_seqZ, !Nat2Z.id.
  intros [Hl|[Hge [Hl|[Hge' Hl]]]];
    apply list_lookup_fmap_Some in Hl as (s & [= -> -> ->] & Hs);
    apply lookup_seqZ in Hs as [-> Hs]; (split; [done|]);
    (split; [lia|]).
  - left. split; [done|lia].
  - right. left. split; [done|lia].
  - right. right. split; [done|lia].
Qed.

Lemma n_states_of_default cs :
  n_states_of (_default_state_machine (F:=F) cs).1 = Z.of_nat (length cs).
Proof.
  unfold n_states_of, start_states. cbn [_default_state_machine fst snd length].
  rewrite length_seqZ, Nat2Z.id. lia.
Qed.

Lemma default_parameter_columns cs (n_features : nat) :
  cols (_initialize_parameters (_default_state_machine (F:=F) cs).1 n_features)
  = (1 + 3 * length cs)%nat.
Proof.
  unfold _initialize_parameters. cbn [_default_state_machine fst snd length zeros cols].
  change (map ?f ?l) with (f <$> l).
  rewrite !length_app, !length_fmap, !length_seqZ, !Nat2Z.id. lia.
Qed.

Lemma default_edge_range cs fuel xs l i0 j0 i1 j1 s0 s1 k :
  _build_lattice fuel xs (_default_state_machine cs).1 = Ok l ->
  [i0; j0; i1; j1; s0; s1; k] ∈ l ->
  Z.of_nat (length cs) <= k < 4 * Z.of_nat (length cs).
Proof.
  intros (raw & Hraw & ->)%build_lattice_Ok Hin.
  rewrite sorted_Permutation in Hin.
  destruct (unsorted_edge_is_transition _ _ _ _ _ _ _ _ _ _ _ Hraw Hin)
    as (n & d & Hn & Hk & _).
  rewrite n_states_of_default in Hk.
  apply default_transitions_lookup in Hn as (_ & Hs & Hd). lia.
Qed.

(** Under the default state machine of [n] classes, every edge of a returned
    lattice is a self-transition on a start state [s], and its column tells
    the operation: [n + s] for a match, which moves by [(1, 1)], [2n + s] for
    an insertion, by [(0, 1)], and [3n + s] for a deletion, by [(1, 0)]. *)
Theorem default_edge_columns cs fuel xs l i0 j0 i1 j1 s0 s1 k :
  _build_lattice fuel xs (_default_state_machine cs).1 = Ok l ->
  [i0; j0; i1; j1; s0; s1; k] ∈ l ->
  s1 = s0 /\ 0 <= s0 < Z.of_nat (length cs) /\
  ((i1 = i0 + 1 /\ j1 = j0 + 1 /\ k = Z.of_nat (length cs) + s0) \/
   (i1 = i0 /\ j1 = j0 + 1 /\ k = 2 * Z.of_nat (length cs) + s0) \/
   (i1 = i0 + 1 /\ j1 = j0 /\ k = 3 * Z.of_nat (length cs) + s0)).
Proof.
  intros (raw & Hraw & ->)%build_lattice_Ok Hin.
  rewrite sorted_Permutation in Hin.
  destruct (unsorted_edge_is_transition _ _ _ _ _ _ _ _ _ _ _ Hraw Hin)
    as (n & d & Hn & Hk & Hi & Hj & _).
  rewrite n_states_of_default in Hk.
  apply default_transitions_lookup in Hn as (-> & Hs & Hd).
  split; [done|]. split; [done|].
  destruct Hd as [[-> Hidx] | [[-> Hidx] | [-> Hidx]]]; cbn [eval_delta fst snd] in *.
  - left. lia.
  - right. left. lia.
  - right. right. lia.
Qed.

(** The column of an edge of a lattice of the default state machine of [n]
    classes is a column of the matrix of [_initialize_parameters], which has
    [1 + 3n] columns, exactly when it is at most [3n]; with one class every
    edge column is one. *)
Theorem default_edge_column_valid cs fuel xs l (n_features : nat)
    i0 j0 i1 j1 s0 s1 k :
  _build_lattice fuel xs (_default_state_machine cs).1 = Ok l ->
  [i0; j0; i1; j1; s0; s1; k] ∈ l ->
  ((exists col,
      column (_initialize_parameters (_default_state_machine cs).1 n_features) k
        = Ok col) <->
   k <= 3 * Z.of_nat (length cs)) /\
  (length cs = 1%nat ->
   exists col,
     column (_initialize_parameters (_default_state_machine cs).1 n_features) k
       = Ok col).
Proof.
  intros Hrun Hin.
  pose proof (default_edge_range _ _ _ _ _ _ _ _ _ _ _ Hrun Hin) as Hrange.
  assert ((exists col,
      column (_initialize_parameters (_default_state_machine cs).1 n_features) k
        = Ok col) <-> k <= 3 * Z.of_nat (length cs)) as Hiff.
  { unfold column, axis_index. rewrite default_parameter_columns.
    destruct (decide (0 <= k < Z.of_nat (1 + 3 * length cs))) as [Hin'|Hout].
    - split; [lia|]. intros _. eexists. reflexivity.
    - rewrite decide_False by lia. split; [by intros [? ?]|lia]. }
  split; [done|]. intros Hone. apply Hiff. lia.
Qed.

(** For a class list without duplicates, as [fit] makes it from the labels,
    [states_to_classes] is a bijection between the start states and the
    classes: it is defined on the start states only, and each class is the
    class of exactly one state. *)
Theorem states_to_classes_bijection cs :
  NoDup cs ->
  (forall s c, (_default_state_machine (F:=F) cs).2 !! s = Some c ->
     c ∈ cs /\ s ∈ start_states (_default_state_machine (F:=F) cs).1) /\
  (forall c, c ∈ cs ->
     exists s, (_default_state_machine (F:=F) cs).2 !! s = Some c /\
       forall s', (_default_state_machine (F:=F) cs).2 !! s' = Some c -> s' = s).
Proof.
  intros Hnd. cbn [_default_state_machine fst snd]. split.
  - intros s c. rewrite py_dict_enumerate.
    destruct (decide (0 <= s)); [|done]. intros Hs.
    split; [by eapply list_elem_of_lookup_2|].
    apply lookup_lt_Some in Hs.
    change (s ∈ seqZ 0 (Z.of_nat (length cs))). apply elem_of_seqZ. lia.
  - intros c (i & Hi)%list_elem_of_lookup_1. exists (Z.of_nat i). split.
    + rewrite py_dict_enumerate, decide_True by lia. by rewrite Nat2Z.id.
    + intros s'. rewrite py_dict_enumerate.
      destruct (decide (0 <= s')); [|done]. intros Hs'.
      pose proof (NoDup_lookup _ _ _ _ Hnd Hi Hs'). lia.
Qed.

End DefaultColumns.

Lemma default_edge_columns_witness :
  _build_lattice 10 (zero_tensor 1 2 1) (_default_state_machine [0]).1
    = Ok [[0; 0; 0]; [0; 0; 0; 1; 0; 0; 2]; [0; 1; 0]] /\
  [0; 0; 0; 1; 0; 0; 2] ∈ [[0; 0; 0]; [0; 0; 0; 1; 0; 0; 2]; [0; 1; 0]] /\
  0 = 0 /\ 0 <= 0 < Z.of_nat (length [0]) /\
  ((0 = 0 + 1 /\ 1 = 0 + 1 /\ 2 = Z.of_nat (length [0]) + 0) \/
   (0 = 0 /\ 1 = 0 + 1 /\ 2 = 2 * Z.of_nat (length [0]) + 0) \/
   (0 = 0 + 1 /\ 1 = 0 /\ 2 = 3 * Z.of_nat (length [0]) + 0)).
Proof.
  assert (_build_lattice 10 (zero_tensor 1 2 1) (_default_state_machine [0]).1
    = Ok [[0; 0; 0]; [0; 0; 0; 1; 0; 0; 2]; [0; 1; 0]]) as Hrun
    by (vm_compute; reflexivity).
  assert ([0; 0; 0; 1; 0; 0; 2] ∈ [[0; 0; 0]; [0; 0; 0; 1; 0; 0; 2]; [0; 1; 0]])
    as Hin by (apply (bool_decide_eq_true_1 (_ ∈ _)); vm_compute; reflexivity).
  split; [exact Hrun|]. split; [exact Hin|].
  exact (default_edge_columns [0] _ _ _ _ _ _ _ _ _ _ Hrun Hin).
Defined.

Lemma default_edge_column_valid_witness :
  _build_lattice 10 (zero_tensor 1 2 1) (_default_state_machine [0]).1
    = Ok [[0; 0; 0]; [0; 0; 0; 1; 0; 0; 2]; [0; 1; 0]] /\
  [0; 0; 0; 1; 0; 0; 2] ∈ [[0; 0; 0]; [0; 0; 0; 1; 0; 0; 2]; [0; 1; 0]] /\
  ((exists col,
      column (_initialize_parameters (_default_state_machine (F:=fterm) [0]).1 1) 2
        = Ok col) <->
   2 <= 3 * Z.of_nat (length [0])) /\
  (length [0] = 1%nat ->
   exists col,
     column (_initialize_parameters (_default_state_machine (F:=fterm) [0]).1 1) 2
       = Ok col).
Proof.
  assert (_build_lattice 10 (zero_tensor 1 2 1) (_default_state_machine [0]).1
    = Ok [[0; 0; 0]; [0; 0; 0; 1; 0; 0; 2]; [0; 1; 0]]) as Hrun
    by (vm_compute; reflexivity).
  assert ([0; 0; 0; 1; 0; 0; 2] ∈ [[0; 0; 0]; [0; 0; 0; 1; 0; 0; 2]; [0; 1; 0]])
    as Hin by (apply (bool_decide_eq_true_1 (_ ∈ _)); vm_compute; reflexivity).
  split; [exact Hrun|]. split; [exact Hin|].
  exact (default_edge_column_valid [0] _ _ _ 1%nat _ _ _ _ _ _ _ Hrun Hin).
Defined.

Lemma states_to_classes_bijection_witness :
  NoDup [7; 9] /\
  (forall s c, (_default_state_machine (F:=fterm) [7; 9]).2 !! s = Some c ->
     c ∈ [7; 9] /\ s ∈ start_states (_default_state_machine (F:=fterm) [7; 9]).1) /\
  (forall c, c ∈ [7; 9] ->
     exists s, (_default_state_machine (F:=fterm) [7; 9]).2 !! s = Some c /\
       forall s', (_default_state_machine (F:=fterm) [7; 9]).2 !! s' = Some c ->
         s' = s).
Proof.
  assert (NoDup [7; 9]) as Hnd
    by (apply (bool_decide_eq_true_1 (NoDup _)); vm_compute; reflexivity).
  split; [exact Hnd|].
  exact (states_to_classes_bijection (F:=fterm) [7; 9] Hnd).
Defined.

Section FitModels.
Context {F : Type} `{FloatOps F} {C : Type} `{EqDecision C}.
Context {OptimizerResult : Type}.
Context (fmin_l_bfgs_b :
  (ndarray2 (F:=F) -> Res (F * ndarray2 (F:=F))) -> ndarray2 (F:=F) ->
  Res OptimizerResult).
Context (list_of_set : list C -> list C).

Lemma make_models_default fuel (cs : list C) (X : list (ndarray3 (F:=F)))
    (ys : list C) :
  (forall x0, x0 ∈ X -> (lattice_fuel x0 (_default_state_machine cs).1 <= fuel)%nat) ->
  exists ms, make_models fuel (_default_state_machine cs).1 cs X ys = (ms, Ok ms).
Proof.
  pose proof (edit_machine_fixed_delta_ok _ (default_edit_machine (F:=F) cs)) as Hok.
  revert ys. induction X as [|x0 X IH]; intros [|y0 ys] Hfuel;
    try (by exists []).
  destruct (IH ys) as [ms Hms]; [intros; apply Hfuel; by right|].
  destruct (unsorted_lattice_returns x0 (_default_state_machine cs).1
              (seqZ 0 (Z.of_nat (length cs))) [] eq_refl Hok) as [raw Hraw].
  specialize (Hraw fuel (Hfuel x0 ltac:(by left))).
  cbn [make_models]. unfold __init__, _build_lattice. rewrite Hraw.
  cbn [mbind mret Res_mbind Res_mret Res_bind]. rewrite Hms. eexists. reflexivity.
Qed.

(** For a non-empty training set with as many labels as tensors, whatever
    the optimizer does and in whatever order the set of labels is listed,
    [fit] constructs exactly one model per example, and [parameters] holds a
    matrix with one row per feature of the first tensor and [1 + 3n]
    columns, [n] the number of distinct labels. *)
Theorem fit_constructs_models (fuel : nat) (self : Hacrf)
    (X : list (ndarray3 (F:=F))) (ys : list C) :
  set_listing list_of_set ->
  length X = length ys -> X <> [] ->
  (forall x0, x0 ∈ X ->
     (lattice_fuel x0 (_default_state_machine (list_of_set ys)).1 <= fuel)%nat) ->
  length (fit_models (fit fmin_l_bfgs_b list_of_set fuel self X ys)) = length X /\
  exists x0 p,
    head X = Some x0 /\
    parameters (fit_self (fit fmin_l_bfgs_b list_of_set fuel self X ys)) = Some p /\
    rows p = dimF x0 /\ cols p = (1 + 3 * length (remove_dups ys))%nat.
Proof.
  intros Hset Hlen Hne Hfuel. unfold fit. rewrite decide_False by lia.
  destruct X as [|x0 X']; [done|].
  destruct (make_models_default fuel (list_of_set ys) (x0 :: X') ys Hfuel)
    as [ms Hms].
  pose proof (make_models_Ok _ _ _ _ _ _ _ Hms) as (_ & Hl & _).
  assert (length ms = length (x0 :: X')) as Hl' by lia.
  pose proof (default_parameter_columns (F:=F) (list_of_set ys) (dimF x0)) as Hcols.
  assert (length (list_of_set ys) = length (remove_dups ys)) as Hn.
  { destruct (Hset ys) as [Hnd Hel]. apply Permutation_length.
    apply NoDup_Permutation; [done|apply NoDup_remove_dups|].
    intros c. by rewrite Hel, elem_of_remove_dups. }
  rewrite Hn in Hcols.
  destruct (_default_state_machine (list_of_set ys)) as [sm s2c] eqn:Hsm.
  cbn [fst] in *. rewrite Hms.
  destruct (fmin_l_bfgs_b _ _) as [res|e|]; cbn [fit_models fit_self parameters];
    (split; [done|]); exists x0; eexists; (split; [done|]); (split; [done|]);
    by split.
Qed.

End FitModels.

Lemma fit_constructs_models_witness :
  set_listing (remove_dups (A:=Z)) /\
  length [zero_tensor 1 1 1] = length [0] /\
  [zero_tensor 1 1 1] <> [] /\
  (forall x0, x0 ∈ [zero_tensor 1 1 1] ->
     (lattice_fuel x0 (_default_state_machine (remove_dups [0])).1 <= 20)%nat) /\
  length (fit_models (fit (fun objective x0 => objective x0) remove_dups 20
                        Hacrf_init [zero_tensor 1 1 1] [0]))
    = length [zero_tensor 1 1 1] /\
  exists x0 p,
    head [zero_tensor 1 1 1] = Some x0 /\
    parameters (fit_self (fit (fun objective x0 => objective x0) remove_dups 20
                            Hacrf_init [zero_tensor 1 1 1] [0])) = Some p /\
    rows p = dimF x0 /\ cols p = (1 + 3 * length (remove_dups [0]))%nat.
Proof.
  assert (set_listing (remove_dups (A:=Z))) as Hset.
  { intros ys. split; [apply NoDup_remove_dups|]. intros c. apply elem_of_remove_dups. }
  assert (length [zero_tensor 1 1 1] = length [0]) as Hlen by reflexivity.
  assert ([zero_tensor 1 1 1] <> []) as Hne by discriminate.
  assert (forall x0, x0 ∈ [zero_tensor 1 1 1] ->
    (lattice_fuel x0 (_default_state_machine (remove_dups [0])).1 <= 20)%nat)
    as Hfuel.
  { intros x0 Hx0. apply list_elem_of_singleton in Hx0. subst x0.
    apply Nat.leb_le. vm_compute. reflexivity. }
  split; [exact Hset|]. split; [exact Hlen|]. split; [exact Hne|].
  split; [exact Hfuel|].
  exact (fit_constructs_models (fun objective x0 => objective x0) remove_dups 20
           Hacrf_init [zero_tensor 1 1 1] [0] Hset Hlen Hne Hfuel).
Defined.

Lemma degenerate_lattice_witness :
  (dimI (zero_tensor 0 3 1) = 0%nat \/ dimJ (zero_tensor 0 3 1) = 0%nat) /\
  (lattice_fuel (zero_tensor 0 3 1) (_default_state_machine [7; 9]).1 <= 700)%nat /\
  _build_lattice 700 (zero_tensor 0 3 1) (_default_state_machine [7; 9]).1 =
  Ok (map (fun s => [0; 0; s]) (seqZ 0 (Z.of_nat (length [7; 9])))).
Proof.
  assert (dimI (zero_tensor 0 3 1) = 0%nat \/ dimJ (zero_tensor 0 3 1) = 0%nat)
    as Hdim by (left; reflexivity).
  assert (lattice_fuel (zero_tensor 0 3 1) (_default_state_machine [7; 9]).1 <= 700)%nat
    as Hfuel by (apply Nat.leb_le; vm_compute; reflexivity).
  split; [exact Hdim|]. split; [exact Hfuel|].
  exact (degenerate_lattice [7; 9] (zero_tensor 0 3 1) Hdim 700%nat Hfuel).
Defined.

Section NodeBounds.
Context {F : Type} `{FloatOps F}.

(** With fixed non-negative deltas, not both zero, whatever the states and
    the transitions between them, every node of a returned lattice is the
    start node of a start state or lies within the tensor, away from the
    origin: [0 <= i < I], [0 <= j < J] and [i + j >= 1]. *)
Theorem lattice_nodes_in_bounds fuel (xs : ndarray3 (F:=F))
    (sm : StateMachine (F:=F)) l i j s :
  Forall fixed_delta_ok sm.2 ->
  _build_lattice fuel xs sm = Ok l ->
  [i; j; s] ∈ l ->
  (i = 0 /\ j = 0 /\ s ∈ start_states sm) \/
  (0 <= i < Z.of_nat (dimI xs) /\ 0 <= j < Z.of_nat (dimJ xs) /\ 1 <= i + j).
Proof.
  intros Hok (raw & Hraw & ->)%build_lattice_Ok Hin.
  rewrite sorted_Permutation in Hin.
  apply (unsorted_lattice_emits (fun n => 0 <= n.1.1 /\ 0 <= n.1.2)
    (fun t => forall i j s, t = [i; j; s] ->
       0 <= i < Z.of_nat (dimI xs) /\ 0 <= j < Z.of_nat (dimJ xs) /\ 1 <= i + j))
    in Hraw as (Y & Hperm & HY).
  - rewrite Hperm, elem_of_app in Hin.
    destruct Hin as [(s' & [= -> -> ->] & Hs')%list_elem_of_fmap|Hin]; [by left|].
    right. rewrite Forall_forall in HY. by apply (HY _ Hin i j s).
  - intros ns i' j' s' c [Hi Hj] Hc. cbn [fst snd] in *.
    destruct (successor_in_bounds xs sm ns i' j' s' c Hok Hi Hj Hc) as (? & ? & ?).
    split; [lia|]. destruct c as [[a b] c]. cbn [fst snd node_tuple] in *.
    intros ? ? ? [= <- <- <-]. lia.
  - intros ns i' j' s' e _ (n & s1 & d & _ & _ & _ & ->)%elem_of_out_edges.
    intros. simplify_eq.
  - intros s' _. cbn [fst snd]. lia.
Qed.

End NodeBounds.

Lemma lattice_nodes_in_bounds_witness :
  Forall fixed_delta_ok (_default_state_machine (F:=fterm) [0]).1.2 /\
  _build_lattice 10 (zero_tensor 1 2 1) (_default_state_machine [0]).1
    = Ok [[0; 0; 0]; [0; 0; 0; 1; 0; 0; 2]; [0; 1; 0]] /\
  [0; 1; 0] ∈ [[0; 0; 0]; [0; 0; 0; 1; 0; 0; 2]; [0; 1; 0]] /\
  ((0 = 0 /\ 1 = 0 /\ 0 ∈ start_states (_default_state_machine (F:=fterm) [0]).1) \/
   (0 <= 0 < Z.of_nat (dimI (zero_tensor 1 2 1)) /\
    0 <= 1 < Z.of_nat (dimJ (zero_tensor 1 2 1)) /\ 1 <= 0 + 1)).
Proof.
  assert (Forall fixed_delta_ok (_default_state_machine (F:=fterm) [0]).1.2) as Hok
    by (vm_compute; repeat constructor; intros; discriminate).
  assert (_build_lattice 10 (zero_tensor 1 2 1) (_default_state_machine [0]).1
    = Ok [[0; 0; 0]; [0; 0; 0; 1; 0; 0; 2]; [0; 1; 0]]) as Hrun
    by (vm_compute; reflexivity).
  assert ([0; 1; 0] ∈ [[0; 0; 0]; [0; 0; 0; 1; 0; 0; 2]; [0; 1; 0]])
    as Hin by (apply (bool_decide_eq_true_1 (_ ∈ _)); vm_compute; reflexivity).
  split; [exact Hok|]. split; [exact Hrun|]. split; [exact Hin|].
  exact (lattice_nodes_in_bounds _ _ _ _ _ _ _ Hok Hrun Hin).
Defined.
